(** * sslyze command line parser: target strings and option resolution

    A shallow embedding of [sslyze/cli/command_line_parser.py]:
    [CommandLineServerStringParser] (the 'host:port{ip}' grammar) and
    [CommandLineParser.parse_command_line] (option sanity checks, the
    per-target loop and the two post-loop adjustments).

    Text is modelled by [string] (a sequence of 8-bit code units), Python
    integers by [Z], [None]-able values by [option], raised exceptions by
    the [Raise] constructor of [result]. *)

From Stdlib Require Import ZArith Ascii.
From stdpp Require Import base gmap strings list pretty.

Open Scope Z_scope.

(** ** Exceptions and results *)

Inductive exn : Type :=
  | ServerConnectivityError (error_msg : string)
  | CommandLineParsingError (msg : string)
  | ValueError (msg : string)
  | UnicodeDecodeError (msg : string)
  | IOError
  | IndexError
  | AttributeError (name : string)
  | OtherException (name : string).

Inductive result (A : Type) : Type :=
  | Ok (a : A)
  | Raise (e : exn).
Arguments Ok {A} a.
Arguments Raise {A} e.

Global Instance result_ret : MRet result := λ A a, Ok a.
Global Instance result_bind : MBind result := λ A B k r,
  match r with
  | Ok a => k a
  | Raise e => Raise e
  end.

(** ** Python string primitives *)

Module Py.

(** [c in s] for a one-character [c]. *)
Fixpoint contains (c : ascii) (s : string) : bool :=
  match s with
  | EmptyString => false
  | String a s' => if Ascii.eqb a c then true else contains c s'
  end.

(** [s.split(sep)] for a one-character [sep]; [rsplit] without a
    [maxsplit] gives the same list. *)
Fixpoint split (sep : ascii) (s : string) : list string :=
  match s with
  | EmptyString => [EmptyString]
  | String a s' =>
      if Ascii.eqb a sep then EmptyString :: split sep s'
      else match split sep s' with
           | [] => [String a EmptyString]
           | x :: xs => String a x :: xs
           end
  end.

(** [s.replace(c, '')]. *)
Fixpoint remove (c : ascii) (s : string) : string :=
  match s with
  | EmptyString => EmptyString
  | String a s' => if Ascii.eqb a c then remove c s' else String a (remove c s')
  end.

(** [l[i]], raising [IndexError] when out of range. *)
Definition index {A} (l : list A) (i : nat) : result A :=
  match l !! i with
  | Some x => Ok x
  | None => Raise IndexError
  end.

(** Whitespace of a [unicode] object among the first 256 code points. *)
Definition isspace_unicode (c : ascii) : bool :=
  let n := nat_of_ascii c in
  ((9 <=? n) && (n <=? 13) || (28 <=? n) && (n <=? 32)
   || (n =? 133) || (n =? 160))%nat.

(** Whitespace of a byte [str] in the C locale. *)
Definition isspace_bytes (c : ascii) : bool :=
  let n := nat_of_ascii c in
  ((9 <=? n) && (n <=? 13) || (n =? 32))%nat.

Definition digit_value (c : ascii) : option Z :=
  let n := nat_of_ascii c in
  if ((48 <=? n) && (n <=? 57))%nat then Some (Z.of_nat n - 48) else None.

Fixpoint lstrip (sp : ascii → bool) (s : string) : string :=
  match s with
  | EmptyString => EmptyString
  | String a s' => if sp a then lstrip sp s' else s
  end.

(** Consume the leading decimal digits of [s], accumulating their value. *)
Fixpoint digits (acc : Z) (s : string) : Z * string :=
  match s with
  | EmptyString => (acc, EmptyString)
  | String a s' =>
      match digit_value a with
      | Some d => digits (10 * acc + d) s'
      | None => (acc, s)
      end
  end.

Definition sign (s : string) : bool * string :=
  match s with
  | EmptyString => (false, s)
  | String a r =>
      if Ascii.eqb a "+" then (false, r)
      else if Ascii.eqb a "-" then (true, r)
      else (false, s)
  end.

(** Blanks, at least one decimal digit, blanks. *)
Definition unsigned (s : string) : option Z :=
  let s := lstrip isspace_unicode s in
  match s with
  | EmptyString => None
  | String a _ =>
      match digit_value a with
      | None => None
      | Some _ =>
          let '(n, rest) := digits 0 s in
          match lstrip isspace_unicode rest with
          | EmptyString => Some n
          | String _ _ => None
          end
      end
  end.

(** [int(s)] on a [unicode] object, base 10: blanks, an optional sign,
    then [unsigned].  [None] stands for any exception ([int] is only
    called under a bare [except:]). *)
Definition int (s : string) : option Z :=
  let '(neg, s) := sign (lstrip isspace_unicode s) in
  n ← unsigned s;
  Some (if neg : bool then - n else n).

(** [str(n)] for an integer. *)
Definition str (n : Z) : string := pretty n.

Fixpoint rstrip (sp : ascii → bool) (s : string) : string :=
  match s with
  | EmptyString => EmptyString
  | String a s' =>
      match rstrip sp s' with
      | EmptyString => if sp a then EmptyString else String a EmptyString
      | String b r => String a (String b r)
      end
  end.

(** [s.strip()]. *)
Definition strip (sp : ascii → bool) (s : string) : string :=
  rstrip sp (lstrip sp s).

(** [s.startswith(c)] for a one-character [c]. *)
Definition startswith (c : ascii) (s : string) : bool :=
  match s with
  | EmptyString => false
  | String a _ => Ascii.eqb a c
  end.

Definition newline : ascii := ascii_of_nat 10.

(** [f.readlines()]: the lines of a file, each with its line end. *)
Fixpoint readlines (content : string) : list string :=
  match content with
  | EmptyString => []
  | String a s' =>
      if Ascii.eqb a newline then String a EmptyString :: readlines s'
      else match readlines s' with
           | [] => [String a EmptyString]
           | l :: ls => String a l :: ls
           end
  end.

(** [sep.join(l)]. *)
Fixpoint join (sep : string) (l : list string) : string :=
  match l with
  | [] => EmptyString
  | [x] => x
  | x :: xs => x +:+ sep +:+ join sep xs
  end.

(** Truth value of a string-or-[None] option value. *)
Definition truthy (o : option string) : bool :=
  match o with
  | Some (String _ _) => true
  | _ => false
  end.

(** Values an attribute set by a plugin option can hold. *)
Inductive value : Type :=
  | VNone
  | VBool (b : bool)
  | VInt (n : Z)
  | VStr (s : string).

Definition bool_of (v : value) : bool :=
  match v with
  | VNone => false
  | VBool b => b
  | VInt n => negb (n =? 0)
  | VStr s => truthy (Some s)
  end.

End Py.

(** ** CommandLineServerStringParser *)

Definition SERVER_STRING_ERROR_BAD_PORT : string := "Not a valid host:port".
Definition SERVER_STRING_ERROR_NO_IPV6 : string :=
  "IPv6 is not supported on this platform".

Definition BadPort : exn :=
  ServerConnectivityError SERVER_STRING_ERROR_BAD_PORT.
Definition NoIPv6 : exn :=
  ServerConnectivityError SERVER_STRING_ERROR_NO_IPV6.

Section ServerStringParser.

(** [socket.has_ipv6], a constant of the platform. *)
Variable has_ipv6 : bool.

Definition _parse_ipv4_server_string (server_str : string)
  : result (string * option Z) :=
  if Py.contains ":" server_str then
    host ← Py.index (Py.split ":" server_str) 0;
    seg ← Py.index (Py.split ":" server_str) 1;
    match Py.int seg with
    | Some port => Ok (host, Some port)
    | None => Raise BadPort
    end
  else Ok (server_str, None).

Definition _parse_ipv6_server_string (server_str : string)
  : result (string * option Z) :=
  if negb has_ipv6 then
    Raise NoIPv6
  else
    let target_split := Py.split "]" server_str in
    head ← Py.index target_split 0;
    ipv6_addr ← Py.index (Py.split "[" head) 1;
    tail ← Py.index target_split 1;
    if Py.contains ":" tail then
      seg ← Py.index (Py.split ":" tail) 1;
      match Py.int seg with
      | Some port => Ok (ipv6_addr, Some port)
      | None => Raise BadPort
      end
    else Ok (ipv6_addr, None).

(** The first block of [parse_server_string]: the working host string
    and the forced IP taken from a '{...}' suffix. *)
Definition extract_ip (server_str : string) : result (string * option string) :=
  if Py.contains "{" server_str && Py.contains "}" server_str then
    let raw_target := Py.split "{" server_str in
    raw_ip ← Py.index raw_target 1;
    let ip := Py.remove "}" raw_ip in
    server_str' ← Py.index raw_target 0;
    Ok (server_str', Some ip)
  else Ok (server_str, None).

Definition parse_server_string (server_str : string)
  : result (string * option string * option Z) :=
  '(server_str, ip) ← extract_ip server_str;
  if Py.contains "[" server_str then
    '(host, port) ← _parse_ipv6_server_string server_str;
    Ok (host, ip, port)
  else
    '(ip, port) ←
      match ip with
      | Some i =>
          if Py.contains "[" i then
            '(i', port) ← _parse_ipv6_server_string i;
            Ok (Some i', port)
          else Ok (ip, None)
      | None => Ok (ip, None)
      end;
    '(host, port) ← _parse_ipv4_server_string server_str;
    Ok (host, ip, port).

End ServerStringParser.

(** ** Collaborators declared in other modules *)

(** [sslyze.ssl_settings.TlsWrappedProtocolEnum], with the members the
    parser names. *)
Inductive TlsWrappedProtocolEnum : Type :=
  | PLAIN_TLS | HTTPS
  | STARTTLS_SMTP | STARTTLS_XMPP | STARTTLS_XMPP_SERVER | STARTTLS_FTP
  | STARTTLS_POP3 | STARTTLS_LDAP | STARTTLS_IMAP | STARTTLS_RDP
  | STARTTLS_POSTGRES.

(** [nassl.ssl_client.OpenSslFileTypeEnum]. *)
Inductive OpenSslFileTypeEnum : Type := PEM | ASN1.

(** Exceptions that an [except ValueError] clause catches. *)
Definition is_ValueError (e : exn) : bool :=
  match e with
  | ServerConnectivityError _ | CommandLineParsingError _
  | ValueError _ | UnicodeDecodeError _ => true
  | _ => false
  end.

(** [e[0]], the first constructor argument of an exception. *)
Definition exn_arg0 (e : exn) : string :=
  match e with
  | ServerConnectivityError m | CommandLineParsingError m
  | ValueError m | UnicodeDecodeError m
  | AttributeError m | OtherException m => m
  | IOError | IndexError => EmptyString
  end.

(** Modelled from the spec: the descriptor class
    [sslyze.server_connectivity.ServerConnectivityInfo] is not part of
    this file; its attributes are those of the spec's
    ServerConnectivityDescriptor, and [server_string] is the attribute that
    [parse_command_line] adds. *)
Record ServerConnectivityInfo (Creds Tunnel : Type) : Type := {
  hostname : string;
  port : Z;
  ip_address : option string;
  tls_wrapped_protocol : TlsWrappedProtocolEnum;
  tls_server_name_indication : option string;
  xmpp_to_hostname : option string;
  client_auth_credentials : option Creds;
  http_tunneling_settings : option Tunnel;
  server_string : string
}.
Arguments hostname {_ _} _.
Arguments port {_ _} _.
Arguments ip_address {_ _} _.
Arguments tls_wrapped_protocol {_ _} _.
Arguments tls_server_name_indication {_ _} _.
Arguments xmpp_to_hostname {_ _} _.
Arguments client_auth_credentials {_ _} _.
Arguments http_tunneling_settings {_ _} _.
Arguments server_string {_ _} _.

Definition set_server_string {C T} (s : string) (i : ServerConnectivityInfo C T)
  : ServerConnectivityInfo C T :=
  {| hostname := hostname i; port := port i; ip_address := ip_address i;
     tls_wrapped_protocol := tls_wrapped_protocol i;
     tls_server_name_indication := tls_server_name_indication i;
     xmpp_to_hostname := xmpp_to_hostname i;
     client_auth_credentials := client_auth_credentials i;
     http_tunneling_settings := http_tunneling_settings i;
     server_string := s |}.

Definition set_tls_wrapped_protocol {C T} (p : TlsWrappedProtocolEnum)
  (i : ServerConnectivityInfo C T) : ServerConnectivityInfo C T :=
  {| hostname := hostname i; port := port i; ip_address := ip_address i;
     tls_wrapped_protocol := p;
     tls_server_name_indication := tls_server_name_indication i;
     xmpp_to_hostname := xmpp_to_hostname i;
     client_auth_credentials := client_auth_credentials i;
     http_tunneling_settings := http_tunneling_settings i;
     server_string := server_string i |}.

(** Modelled from the spec: [sslyze.cli.FailedServerScan] is not part of
    this file; it keeps the original string and the reason (FailedTarget). *)
Record FailedServerScan : Type := {
  failed_server_string : string;
  failed_reason : exn
}.

(** ** CommandLineParser: constants *)

Definition REGULAR_CMD : list string :=
  ["sslv2"; "sslv3"; "tlsv1"; "tlsv1_1"; "tlsv1_2"; "reneg"; "resum";
   "certinfo_basic"; "http_get"; "hide_rejected_ciphers"; "compression";
   "heartbleed"; "openssl_ccs"; "fallback"].

Definition START_TLS_PROTOCOLS : list string :=
  ["smtp"; "xmpp"; "xmpp_server"; "pop3"; "ftp"; "imap"; "ldap"; "rdp";
   "postgres"; "auto"].

Definition START_TLS_USAGE : string :=
  "StartTLS should be one of: " +:+ Py.join " , " START_TLS_PROTOCOLS +:+
  ". The 'auto' option will cause SSLyze to deduce the protocol " +:+
  "(ftp, imap, etc.) from the supplied port number, " +:+
  "for each target servers.".

(** The dictionary has protocol names and port numbers as keys. *)
Definition STARTTLS_PROTOCOL_DICT : gmap (string + Z) TlsWrappedProtocolEnum :=
  list_to_map
    [(inl "smtp", STARTTLS_SMTP); (inr 587, STARTTLS_SMTP);
     (inr 25, STARTTLS_SMTP);
     (inl "xmpp", STARTTLS_XMPP); (inr 5222, STARTTLS_XMPP);
     (inl "xmpp_server", STARTTLS_XMPP_SERVER); (inr 5269, STARTTLS_XMPP_SERVER);
     (inl "pop3", STARTTLS_POP3); (inr 109, STARTTLS_POP3);
     (inr 110, STARTTLS_POP3);
     (inl "imap", STARTTLS_IMAP); (inr 143, STARTTLS_IMAP);
     (inr 220, STARTTLS_IMAP);
     (inl "ftp", STARTTLS_FTP); (inr 21, STARTTLS_FTP);
     (inl "ldap", STARTTLS_LDAP); (inr 3268, STARTTLS_LDAP);
     (inr 389, STARTTLS_LDAP);
     (inl "rdp", STARTTLS_RDP); (inr 3389, STARTTLS_RDP);
     (inl "postgres", STARTTLS_POSTGRES); (inr 5432, STARTTLS_POSTGRES)].

(** ** The option parser object *)

(** What [optparse] keeps of the registered options: their option strings. *)
Record CommandLineParser : Type := { _parser : list string }.

Definition has_option (parser : list string) (opt_str : string) : bool :=
  bool_decide (opt_str ∈ parser).

(** [add_option]: registering an option string twice is a conflict. *)
Definition add_option (opt_str : string) (parser : list string)
  : result (list string) :=
  if has_option parser opt_str
  then Raise (OtherException "OptionConflictError")
  else Ok (parser ++ [opt_str]).

Fixpoint add_options (opts : list string) (parser : list string)
  : result (list string) :=
  match opts with
  | [] => Ok parser
  | o :: os => p ← add_option o parser; add_options os p
  end.

Definition _add_default_options (parser : list string) : result (list string) :=
  add_options
    ["--cert"; "--key"; "--keyform"; "--pass";
     "--xml_out"; "--json_out"; "--targets_in"; "--quiet";
     "--timeout"; "--nb_retries"; "--https_tunnel"; "--starttls";
     "--xmpp_to"; "--sni"] parser.

(** Each plugin contributes the option strings of its option group. *)
Fixpoint _add_plugin_options (available_plugins : list (list string))
  (parser : list string) : result (list string) :=
  match available_plugins with
  | [] => Ok parser
  | plugin_class :: rest =>
      p ← add_options plugin_class parser; _add_plugin_options rest p
  end.

Definition __init__ (available_plugins : list (list string))
  : result CommandLineParser :=
  let parser := ["--version"; "-h"; "--help"] in
  parser ← _add_default_options parser;
  parser ← _add_plugin_options available_plugins parser;
  parser ← add_option "--regular" parser;
  Ok {| _parser := parser |}.

(** The values [parse_args] returns: one attribute per option of
    [_add_default_options], [regular], and the attributes of the options
    that plugins contribute, by destination name. *)
Record Values : Type := {
  cert : option string;
  key : option string;
  keyform : string;
  keypass : string;
  xml_file : option string;
  json_file : option string;
  targets_in : option string;
  quiet : option bool;
  timeout : Z;
  nb_retries : Z;
  https_tunnel : option string;
  starttls : option string;
  xmpp_to : option string;
  sni : option string;
  regular : option bool;
  plugin_values : gmap string Py.value
}.

Definition set_regular (b : bool) (a : Values) : Values :=
  {| cert := cert a; key := key a; keyform := keyform a; keypass := keypass a;
     xml_file := xml_file a; json_file := json_file a;
     targets_in := targets_in a; quiet := quiet a; timeout := timeout a;
     nb_retries := nb_retries a; https_tunnel := https_tunnel a;
     starttls := starttls a; xmpp_to := xmpp_to a; sni := sni a;
     regular := Some b; plugin_values := plugin_values a |}.

(** [setattr(args_command_list, name, v)] for a plugin attribute. *)
Definition setattr (name : string) (v : Py.value) (a : Values) : Values :=
  {| cert := cert a; key := key a; keyform := keyform a; keypass := keypass a;
     xml_file := xml_file a; json_file := json_file a;
     targets_in := targets_in a; quiet := quiet a; timeout := timeout a;
     nb_retries := nb_retries a; https_tunnel := https_tunnel a;
     starttls := starttls a; xmpp_to := xmpp_to a; sni := sni a;
     regular := regular a; plugin_values := <[name := v]> (plugin_values a) |}.

(** Reading a plugin attribute that no option defines is an error. *)
Definition getattr (name : string) (a : Values) : result Py.value :=
  match plugin_values a !! name with
  | Some v => Ok v
  | None => Raise (AttributeError name)
  end.

Definition is_true (o : option bool) : bool :=
  match o with Some true => true | _ => false end.

Definition is_stdout (o : option string) : bool :=
  Py.truthy o && bool_decide (o = Some "-").

(** ** CommandLineParser.parse_command_line *)

Section ParseCommandLine.

(** [socket.has_ipv6]. *)
Variable has_ipv6 : bool.

(** [open(path)] followed by [readlines]: the content of a readable
    file, [None] where it raises [IOError]. *)
Variable open_file : string → option string.

(** [str.decode('utf-8')]. *)
Variable decode_utf8 : string → result string.

(** The two settings classes of [sslyze.ssl_settings]. *)
Variables ClientAuthenticationCredentials HttpConnectTunnelingSettings : Type.
Variable new_ClientAuthenticationCredentials :
  option string → option string → OpenSslFileTypeEnum → string →
  result ClientAuthenticationCredentials.
Variable HttpConnectTunnelingSettings_from_url :
  string → result HttpConnectTunnelingSettings.

(** The constructor of [ServerConnectivityInfo] talks to the network:
    it reads and changes the state of the world. *)
Variable World : Type.
Variable new_ServerConnectivityInfo :
  string → option Z → option string → TlsWrappedProtocolEnum →
  option string → option string →
  option ClientAuthenticationCredentials →
  option HttpConnectTunnelingSettings →
  World →
  result (ServerConnectivityInfo ClientAuthenticationCredentials
            HttpConnectTunnelingSettings) * World.

Local Abbreviation Info := (ServerConnectivityInfo ClientAuthenticationCredentials
                    HttpConnectTunnelingSettings).

(** Handle the --targets_in command line and fill args_target_list: the
    body of the loop over the lines of the file. *)
Definition add_target (args_target_list : list string) (target : string)
  : list string :=
  if Py.truthy (Some (Py.strip Py.isspace_bytes target)) then
    if negb (Py.startswith "#" target)
    then args_target_list ++ [Py.strip Py.isspace_bytes target]
    else args_target_list
  else args_target_list.

Definition read_targets (lines : list string) (args_target_list : list string)
  : list string :=
  fold_left add_target lines args_target_list.

Definition handle_targets_in (args_command_list : Values)
  (args_target_list : list string) : result (list string) :=
  args_target_list ←
    (if Py.truthy (targets_in args_command_list) then
       match args_target_list with
       | _ :: _ =>
           Raise (CommandLineParsingError
             "Cannot use --targets_list and specify targets within the command line.")
       | [] =>
           match open_file (default EmptyString (targets_in args_command_list)) with
           | Some content =>
               Ok (read_targets (Py.readlines content) args_target_list)
           | None =>
               Raise (CommandLineParsingError
                 ("Can't read targets from input file '" +:+
                  default EmptyString (targets_in args_command_list) +:+ "."))
           end
       end
     else Ok args_target_list);
  match args_target_list with
  | [] => Raise (CommandLineParsingError "No targets to scan.")
  | _ :: _ => Ok args_target_list
  end.

(** Handle the --regular command line parameter as a shortcut. *)
Definition handle_regular (self : CommandLineParser)
  (args_command_list : Values) : Values :=
  if has_option (_parser self) "--regular" then
    if is_true (regular args_command_list) then
      fold_left (λ a cmd, setattr cmd (Py.VBool true) a)
        REGULAR_CMD (set_regular false args_command_list)
    else args_command_list
  else args_command_list.

(** Sanity checks on the command line options. *)
Definition check_output_options (args_command_list : Values) : result unit :=
  if is_stdout (xml_file args_command_list)
     && is_true (quiet args_command_list) then
    Raise (CommandLineParsingError "Cannot use --quiet with --xml_out -.")
  else if is_stdout (json_file args_command_list)
          && is_true (quiet args_command_list) then
    Raise (CommandLineParsingError "Cannot use --quiet with --json_out -.")
  else if is_stdout (json_file args_command_list)
          && is_stdout (xml_file args_command_list) then
    Raise (CommandLineParsingError "Cannot use --xml_out - with --json_out -.")
  else Ok ().

(** Sanity checks on the client cert options. *)
Definition check_client_cert (args_command_list : Values)
  : result (option ClientAuthenticationCredentials) :=
  if xorb (Py.truthy (cert args_command_list))
          (Py.truthy (key args_command_list)) then
    Raise (CommandLineParsingError
      "No private key or certificate file were given. See --cert and --key.")
  else if Py.truthy (cert args_command_list) then
    key_type ←
      (if bool_decide (keyform args_command_list = "DER") then Ok ASN1
       else if bool_decide (keyform args_command_list = "PEM") then Ok PEM
       else Raise (CommandLineParsingError "--keyform should be DER or PEM."));
    match new_ClientAuthenticationCredentials
            (cert args_command_list) (key args_command_list)
            key_type (keypass args_command_list) with
    | Ok creds => Ok (Some creds)
    | Raise e =>
        if is_ValueError e then
          Raise (CommandLineParsingError
            ("Invalid client authentication settings: " +:+ exn_arg0 e +:+ "."))
        else Raise e
    end
  else Ok None.

(** HTTP CONNECT proxy. *)
Definition check_https_tunnel (args_command_list : Values)
  : result (option HttpConnectTunnelingSettings) :=
  if Py.truthy (https_tunnel args_command_list) then
    match HttpConnectTunnelingSettings_from_url
            (default EmptyString (https_tunnel args_command_list)) with
    | Ok settings => Ok (Some settings)
    | Raise e =>
        if is_ValueError e then
          Raise (CommandLineParsingError
            ("Invalid proxy URL for --https_tunnel: " +:+ exn_arg0 e +:+ "."))
        else Raise e
    end
  else Ok None.

(** STARTTLS. *)
Definition check_starttls (args_command_list : Values)
  : result TlsWrappedProtocolEnum :=
  if Py.truthy (starttls args_command_list) then
    let name := default EmptyString (starttls args_command_list) in
    if negb (bool_decide (name ∈ START_TLS_PROTOCOLS)) then
      Raise (CommandLineParsingError START_TLS_USAGE)
    else
      match STARTTLS_PROTOCOL_DICT !! inl name with
      | Some protocol => Ok protocol
      | None => Ok PLAIN_TLS
      end
  else Ok PLAIN_TLS.

(** Number of connection retries. *)
Definition check_nb_retries (args_command_list : Values) : result unit :=
  if nb_retries args_command_list <? 1 then
    Raise (CommandLineParsingError
      "Cannot have a number smaller than 1 for --nb_retries.")
  else Ok ().

(** Create the server connectivity info for each specifed servers: the
    body of the [try] for one server string. *)
Definition create_server_info (args_command_list : Values)
  (tls_wrapped_protocol : TlsWrappedProtocolEnum)
  (client_auth_creds : option ClientAuthenticationCredentials)
  (http_tunneling_settings : option HttpConnectTunnelingSettings)
  (server_string : string) (w : World) : result Info * World :=
  match parse_server_string has_ipv6 server_string with
  | Raise e => (Raise e, w)
  | Ok (hostname, ip_address, port) =>
      match new_ServerConnectivityInfo hostname port ip_address
              tls_wrapped_protocol (sni args_command_list)
              (xmpp_to args_command_list) client_auth_creds
              http_tunneling_settings w with
      | (Raise e, w') => (Raise e, w')
      | (Ok server_info, w') =>
          (Ok (set_server_string server_string server_info), w')
      end
  end.

(** The loop over [args_target_list], with its two [except] clauses. *)
Fixpoint create_server_infos (args_command_list : Values)
  (tls_wrapped_protocol : TlsWrappedProtocolEnum)
  (client_auth_creds : option ClientAuthenticationCredentials)
  (http_tunneling_settings : option HttpConnectTunnelingSettings)
  (args_target_list : list string)
  (good_server_list : list Info) (bad_server_list : list FailedServerScan)
  (w : World) : result (list Info * list FailedServerScan) * World :=
  match args_target_list with
  | [] => (Ok (good_server_list, bad_server_list), w)
  | server_string :: rest =>
      match decode_utf8 server_string with
      | Raise e => (Raise e, w)
      | Ok server_string =>
          match create_server_info args_command_list tls_wrapped_protocol
                  client_auth_creds http_tunneling_settings server_string w with
          | (Ok server_info, w') =>
              create_server_infos args_command_list tls_wrapped_protocol
                client_auth_creds http_tunneling_settings rest
                (good_server_list ++ [server_info]) bad_server_list w'
          | (Raise (ServerConnectivityError m), w') =>
              create_server_infos args_command_list tls_wrapped_protocol
                client_auth_creds http_tunneling_settings rest
                good_server_list
                (bad_server_list ++
                   [{| failed_server_string := server_string;
                       failed_reason := ServerConnectivityError m |}]) w'
          | (Raise e, w') =>
              if is_ValueError e
              then (Raise (CommandLineParsingError (exn_arg0 e)), w')
              else (Raise e, w')
          end
      end
  end.

(** Handle --starttls=auto now that we parsed the server strings. *)
Definition handle_starttls_auto (args_command_list : Values)
  (good_server_list : list Info) : list Info :=
  if bool_decide (starttls args_command_list = Some "auto") then
    map (λ server_info,
           match STARTTLS_PROTOCOL_DICT !! inr (port server_info) with
           | Some protocol => set_tls_wrapped_protocol protocol server_info
           | None => server_info
           end) good_server_list
  else good_server_list.

(** Handle --http_get now that we parsed the server strings. *)
Definition handle_http_get (args_command_list : Values)
  (good_server_list : list Info) : result (list Info) :=
  http_get ← getattr "http_get" args_command_list;
  if Py.bool_of http_get then
    Ok (map (λ server_info,
               if port server_info =? 443
               then set_tls_wrapped_protocol HTTPS server_info
               else server_info) good_server_list)
  else Ok good_server_list.

(** The checks that come before the loop: the target list, the options
    after the --regular expansion, and the settings shared by every
    server. *)
Definition resolve_options (self : CommandLineParser)
  (args_command_list : Values) (args_target_list : list string)
  : result (Values * list string
            * option ClientAuthenticationCredentials
            * option HttpConnectTunnelingSettings
            * TlsWrappedProtocolEnum) :=
  args_target_list ← handle_targets_in args_command_list args_target_list;
  let args_command_list := handle_regular self args_command_list in
  _ ← check_output_options args_command_list;
  client_auth_creds ← check_client_cert args_command_list;
  http_tunneling_settings ← check_https_tunnel args_command_list;
  tls_wrapped_protocol ← check_starttls args_command_list;
  _ ← check_nb_retries args_command_list;
  Ok (args_command_list, args_target_list, client_auth_creds,
      http_tunneling_settings, tls_wrapped_protocol).

(** [parsed] is what [self._parser.parse_args()] returned. *)
Definition parse_command_line (self : CommandLineParser)
  (parsed : Values * list string) (w : World)
  : result (list Info * list FailedServerScan * Values) * World :=
  let '(args_command_list, args_target_list) := parsed in
  match resolve_options self args_command_list args_target_list with
  | Raise e => (Raise e, w)
  | Ok (args_command_list, args_target_list, client_auth_creds,
        http_tunneling_settings, tls_wrapped_protocol) =>
      match create_server_infos args_command_list tls_wrapped_protocol
              client_auth_creds http_tunneling_settings args_target_list
              [] [] w with
      | (Raise e, w') => (Raise e, w')
      | (Ok (good_server_list, bad_server_list), w') =>
          let good_server_list :=
            handle_starttls_auto args_command_list good_server_list in
          match handle_http_get args_command_list good_server_list with
          | Raise e => (Raise e, w')
          | Ok good_server_list =>
              (Ok (good_server_list, bad_server_list, args_command_list), w')
          end
      end
  end.

End ParseCommandLine.

Arguments handle_starttls_auto {_ _} _ _.
Arguments handle_http_get {_ _} _ _.

(** ** Splitting a list in two, in order *)

(** [Interleave l1 l2 l]: every element of [l] goes either to [l1] or to
    [l2], and both keep the order of [l]. *)
Inductive Interleave {A : Type} : list A → list A → list A → Prop :=
  | Interleave_nil : Interleave [] [] []
  | Interleave_left x l1 l2 l :
      Interleave l1 l2 l → Interleave (x :: l1) l2 (x :: l)
  | Interleave_right x l1 l2 l :
      Interleave l1 l2 l → Interleave l1 (x :: l2) (x :: l).

(** ** A small environment to run the parser in *)

Module Sample.

(** One targets file, with a comment line, an indented comment-like line
    and a blank line. *)
Definition targets_file : string :=
  "# servers" +:+ String Py.newline
  ("mail.example.com:587" +:+ String Py.newline
  (String Py.newline
  ("  #staging" +:+ String Py.newline "www.example.com"))).

Definition open_file (path : string) : option string :=
  if bool_decide (path = "targets.txt") then Some targets_file else None.

Definition decode_utf8 (s : string) : result string := Ok s.

Definition new_credentials (cert key : option string)
  (key_type : OpenSslFileTypeEnum) (keypass : string) : result unit := Ok ().

Definition from_url (url : string) : result unit := Ok ().

(** The world is the list of the host names looked up so far; names
    under [.invalid] do not resolve. *)
Definition new_info (hostname : string) (port : option Z)
  (ip_address : option string) (protocol : TlsWrappedProtocolEnum)
  (sni xmpp_to : option string) (creds tunnel : option unit)
  (w : list string) : result (ServerConnectivityInfo unit unit) * list string :=
  if bool_decide (hostname = "down.invalid") then
    (Raise (ServerConnectivityError "Could not resolve"), w ++ [hostname])
  else
    (Ok {| hostname := hostname; port := default 443 port;
           ip_address := ip_address; tls_wrapped_protocol := protocol;
           tls_server_name_indication := sni; xmpp_to_hostname := xmpp_to;
           client_auth_credentials := creds;
           http_tunneling_settings := tunnel;
           server_string := EmptyString |}, w ++ [hostname]).

Definition options (cert targets_in starttls : option string)
  (regular : option bool) : Values :=
  {| cert := cert; key := None; keyform := "PEM"; keypass := EmptyString;
     xml_file := None; json_file := None; targets_in := targets_in;
     quiet := None; timeout := 5; nb_retries := 4; https_tunnel := None;
     starttls := starttls; xmpp_to := None; sni := None; regular := regular;
     plugin_values := {[ "http_get" := Py.VNone ]} |}.

Definition no_options : Values := options None None None None.
Definition from_file : Values := options None (Some "targets.txt") None None.
Definition auto_starttls : Values :=
  options None (Some "targets.txt") (Some "auto") None.
Definition regular_scan : Values := options None None None (Some true).

Definition batch : list string :=
  ["example.com:443{1.2.3.4}"; "down.invalid"; "bad:port";
   "a.example.org:587"].

Definition parser : CommandLineParser :=
  {| _parser := ["--version"; "-h"; "--help";
       "--cert"; "--key"; "--keyform"; "--pass";
       "--xml_out"; "--json_out"; "--targets_in"; "--quiet";
       "--timeout"; "--nb_retries"; "--https_tunnel"; "--starttls";
       "--xmpp_to"; "--sni"; "--http_get"; "--regular"] |}.

Definition run (args : Values) (targets : list string) :=
  parse_command_line true open_file decode_utf8 unit unit new_credentials
    from_url (list string) new_info parser (args, targets) [].

End Sample.

(** ** Further option sets for the sample environment *)

Module Cases.

Definition values (cert key xml_file json_file : option string)
  (quiet : option bool) (nb_retries : Z) (starttls : option string)
  (regular : option bool) (plugin_values : gmap string Py.value) : Values :=
  {| cert := cert; key := key; keyform := "PEM"; keypass := EmptyString;
     xml_file := xml_file; json_file := json_file; targets_in := None;
     quiet := quiet; timeout := 5; nb_retries := nb_retries;
     https_tunnel := None; starttls := starttls; xmpp_to := None;
     sni := None; regular := regular; plugin_values := plugin_values |}.

Definition http_get_off : gmap string Py.value := {[ "http_get" := Py.VNone ]}.
Definition http_get_on : gmap string Py.value :=
  {[ "http_get" := Py.VBool true ]}.

Definition quiet_xml_stdout : Values :=
  values None None (Some "-") None (Some true) 4 None None http_get_off.
Definition no_retry : Values :=
  values None None None None None 0 None None http_get_off.
Definition smtp : Values :=
  values None None None None None 4 (Some "smtp") None http_get_off.
Definition with_client_cert : Values :=
  values (Some "client.pem") (Some "client.key") None None None 4 None None
    http_get_off.
Definition with_http_get : Values :=
  values None None None None None 4 None None http_get_on.
Definition no_plugin : Values :=
  values None None None None None 4 None None ∅.

Definition run (args : Values) (targets : list string) :=
  parse_command_line true Sample.open_file Sample.decode_utf8 unit unit
    Sample.new_credentials Sample.from_url (list string) Sample.new_info
    Sample.parser (args, targets) [].

Definition options (args : Values) (targets : list string) :=
  resolve_options Sample.open_file unit unit Sample.new_credentials
    Sample.from_url Sample.parser args targets.

End Cases.

(** * Properties *)

(** ** Strings *)

Section StringFacts.

Lemma split_not_nil sep s : Py.split sep s ≠ [].
Proof.
  destruct s as [|a s]; simpl; [done|].
  destruct (Ascii.eqb a sep); [done|]. by destruct (Py.split sep s).
Qed.

Lemma split_no_sep sep s :
  Py.contains sep s = false → Py.split sep s = [s].
Proof.
  induction s as [|a s IH]; simpl; [done|].
  destruct (Ascii.eqb a sep); [done|]. intros H. by rewrite IH.
Qed.

Lemma split_with_sep sep s :
  Py.contains sep s = true → ∃ x y l, Py.split sep s = x :: y :: l.
Proof.
  induction s as [|a s IH]; simpl; [done|].
  destruct (Ascii.eqb a sep).
  - intros _. pose proof (split_not_nil sep s).
    destruct (Py.split sep s) as [|y l]; [done|]. by exists EmptyString, y, l.
  - intros H. destruct (IH H) as (x & y & l & ->). by exists (String a x), y, l.
Qed.

Lemma split_head_no_sep sep s x l :
  Py.split sep s = x :: l → Py.contains sep x = false.
Proof.
  revert x l. induction s as [|a s IH]; simpl; intros x l.
  - by intros [= <- <-].
  - destruct (Ascii.eqb a sep) eqn:E; [by intros [= <- <-]|].
    destruct (Py.split sep s) as [|y l'] eqn:Hs; intros [= <- <-]; simpl;
      rewrite E; [done|]. by eapply IH.
Qed.

(** The text before the first separator is what [split] puts first. *)
Lemma split_app sep x s :
  Py.contains sep x = false →
  Py.split sep (x +:+ String sep s) = x :: Py.split sep s.
Proof.
  induction x as [|a x IH]; simpl.
  - by rewrite Ascii.eqb_refl.
  - destruct (Ascii.eqb a sep); [done|]. intros H. by rewrite IH.
Qed.

Lemma contains_app c x y :
  Py.contains c (x +:+ y) = Py.contains c x || Py.contains c y.
Proof.
  induction x as [|a x IH]; simpl; [done|]. by destruct (Ascii.eqb a c).
Qed.

(** [readlines] cuts the content after each line end and loses nothing. *)
Lemma readlines_join content : Py.join EmptyString (Py.readlines content) = content.
Proof.
  induction content as [|a s IH]; [done|]. cbn [Py.readlines].
  destruct (Ascii.eqb a Py.newline).
  - destruct (Py.readlines s) as [|l ls]; cbn [Py.join] in *; by rewrite <- IH.
  - destruct (Py.readlines s) as [|l [|l' ls]]; cbn [Py.join] in *;
      by rewrite <- IH.
Qed.

Lemma readlines_lines content :
  Forall (λ line, ∃ body,
            Py.contains Py.newline body = false
            ∧ (line = body +:+ String Py.newline EmptyString
               ∨ (line = body ∧ body ≠ EmptyString)))
    (Py.readlines content).
Proof.
  induction content as [|a s IH]; [constructor|]. cbn [Py.readlines].
  destruct (Ascii.eqb a Py.newline) eqn:E.
  - constructor; [|done]. exists EmptyString. split; [done|]. left.
    by apply Ascii.eqb_eq in E as ->.
  - destruct (Py.readlines s) as [|l ls].
    + constructor; [|done]. exists (String a EmptyString).
      cbn [Py.contains]. rewrite E. split; [done|by right].
    + inversion_clear IH as [|? ? (body & Hb & Hl) Hls].
      constructor; [|done]. exists (String a body).
      cbn [Py.contains]. rewrite E. split; [done|].
      destruct Hl as [->|[-> _]]; [by left|by right].
Qed.

End StringFacts.

(** ** Integers and their decimal text *)

Section IntFacts.

Lemma digit_value_pretty_char x :
  (x < 10)%N → Py.digit_value (pretty_N_char x) = Some (Z.of_N x).
Proof.
  intros H. 
  destruct x as [|p]; [done|].
  do 4 (destruct p as [p|p|]; try done; try lia).
Qed.

Lemma isspace_pretty_char x : Py.isspace_unicode (pretty_N_char x) = false.
Proof. unfold pretty_N_char. by repeat case_match. Qed.

Lemma digits_pretty_N_go x :
  ∃ k, ∀ acc s, Py.digits acc (pretty_N_go x s) = Py.digits (acc * k + Z.of_N x) s.
Proof.
  induction (N.lt_wf_0 x) as [x _ IH].
  destruct (decide (x = 0)%N) as [->|Hx].
  - exists 1. intros acc s. rewrite pretty_N_go_0. f_equal. lia.
  - destruct (IH (x `div` 10)%N) as [k Hk].
    { apply N.div_lt; lia. }
    exists (10 * k). intros acc s.
    rewrite pretty_N_go_step by lia. rewrite Hk. simpl.
    rewrite digit_value_pretty_char by (apply N.mod_lt; lia).
    f_equal. 
    pose proof (N.div_mod x 10 ltac:(lia)). lia.
Qed.

Lemma pretty_N_go_head x s :
  (0 < x)%N → ∃ y r, (y < 10)%N ∧ pretty_N_go x s = String (pretty_N_char y) r.
Proof.
  revert s. induction (N.lt_wf_0 x) as [x _ IH]. intros s Hx.
  rewrite pretty_N_go_step by done.
  destruct (decide (x `div` 10 = 0)%N) as [E|E].
  - rewrite E, pretty_N_go_0. exists (x `mod` 10)%N. eexists. split; [|done].
    apply N.mod_lt; lia.
  - apply IH; [apply N.div_lt; lia | by apply N.neq_0_lt_0].
Qed.

Lemma lstrip_pretty_char x r :
  Py.lstrip Py.isspace_unicode (String (pretty_N_char x) r) = String (pretty_N_char x) r.
Proof. simpl. by rewrite isspace_pretty_char. Qed.

Lemma sign_pretty_char x r :
  Py.sign (String (pretty_N_char x) r) = (false, String (pretty_N_char x) r).
Proof. unfold pretty_N_char. by repeat case_match. Qed.

Lemma unsigned_pretty_N (x : N) : Py.unsigned (pretty x) = Some (Z.of_N x).
Proof.
  unfold pretty, pretty_N. case_decide as Hx; [by subst|].
  destruct (pretty_N_go_head x "" ltac:(lia)) as (y & r & Hy & E).
  destruct (digits_pretty_N_go x) as [k Hk].
  unfold Py.unsigned. rewrite E, lstrip_pretty_char.
  rewrite digit_value_pretty_char by done.
  rewrite <- E, Hk. by simpl.
Qed.

Lemma pretty_N_head (x : N) :
  ∃ y r, pretty x = String (pretty_N_char y) r.
Proof.
  unfold pretty, pretty_N. case_decide as Hx.
  - by exists 0%N, "".
  - destruct (pretty_N_go_head x "" ltac:(lia)) as (y & r & _ & E); eauto.
Qed.

Lemma int_str (n : Z) : Py.int (Py.str n) = Some n.
Proof.
  destruct n as [|p|p].
  - done.
  - change (Py.str (Z.pos p)) with (pretty (N.pos p)). unfold Py.int.
    destruct (pretty_N_head (N.pos p)) as (y & r & E).
    rewrite E, lstrip_pretty_char, sign_pretty_char, <- E.
    by rewrite unsigned_pretty_N.
  - change (Py.str (Z.neg p)) with (String "-" (pretty (N.pos p))).
    unfold Py.int.
    change (Py.lstrip Py.isspace_unicode (String "-" ?s)) with (String "-" s).
    change (Py.sign (String "-" ?s)) with (true, s).
    cbn beta iota. by rewrite unsigned_pretty_N.
Qed.

Lemma contains_pretty_char c x :
  Py.digit_value c = None → Ascii.eqb (pretty_N_char x) c = false.
Proof.
  intros H. destruct (Ascii.eqb_spec (pretty_N_char x) c) as [<-|]; [|done].
  unfold pretty_N_char in H. by repeat case_match.
Qed.

Lemma contains_pretty_N_go c x s :
  Py.digit_value c = None →
  Py.contains c (pretty_N_go x s) = Py.contains c s.
Proof.
  intros Hc. revert s. induction (N.lt_wf_0 x) as [x _ IH]. intros s.
  destruct (decide (x = 0)%N) as [->|Hx]; [by rewrite pretty_N_go_0|].
  rewrite pretty_N_go_step by lia. rewrite IH by (apply N.div_lt; lia).
  simpl. by rewrite contains_pretty_char.
Qed.

Lemma contains_str c n :
  Py.digit_value c = None → c ≠ "-"%char → Py.contains c (Py.str n) = false.
Proof.
  intros Hc Hm.
  assert (∀ x : N, Py.contains c (pretty x) = false) as HN.
  { intros x. unfold pretty, pretty_N. case_decide.
    - cbn [Py.contains].
      destruct (Ascii.eqb_spec "0" c) as [<-|]; [by vm_compute in Hc|done].
    - by rewrite contains_pretty_N_go. }
  destruct n as [|p|p].
  - apply (HN 0%N).
  - apply (HN (N.pos p)).
  - change (Py.str (Z.neg p)) with (String "-" (pretty (N.pos p))).
    cbn [Py.contains]. rewrite HN. by destruct (Ascii.eqb_spec "-" c) as [<-|].
Qed.

End IntFacts.

(** ** The target string parser *)

Section ParserFacts.

Variable has_ipv6 : bool.

Lemma extract_ip_total s : ∃ host ip, extract_ip s = Ok (host, ip).
Proof.
  unfold extract_ip.
  destruct (Py.contains "{" s) eqn:Hl; [|by eexists _, _].
  destruct (Py.contains "}" s); [|by eexists _, _].
  destruct (split_with_sep _ _ Hl) as (x & y & l & ->). by eexists _, _.
Qed.

Lemma extract_ip_plain s :
  Py.contains "{" s = false → extract_ip s = Ok (s, None).
Proof. unfold extract_ip. by intros ->. Qed.

Lemma split_second_contains sep s seg :
  Py.split sep s !! 1%nat = Some seg → Py.contains sep s = true.
Proof.
  destruct (Py.contains sep s) eqn:E; [done|]. by rewrite split_no_sep.
Qed.

Lemma _parse_ipv4_no_port server_str :
  Py.contains ":" server_str = false →
  _parse_ipv4_server_string server_str = Ok (server_str, None).
Proof. unfold _parse_ipv4_server_string. by intros ->. Qed.

Lemma _parse_ipv4_port server_str host seg l :
  Py.split ":" server_str = host :: seg :: l →
  _parse_ipv4_server_string server_str =
    match Py.int seg with
    | Some port => Ok (host, Some port)
    | None => Raise BadPort
    end.
Proof.
  intros Hs. unfold _parse_ipv4_server_string.
  rewrite (split_second_contains ":" server_str seg) by by rewrite Hs.
  by rewrite Hs.
Qed.


(** What [parse_server_string] does once the '{...}' suffix is cut off. *)
Lemma parse_server_string_unfold s host ip :
  extract_ip s = Ok (host, ip) →
  parse_server_string has_ipv6 s =
    if Py.contains "[" host then
      '(h, p) ← _parse_ipv6_server_string has_ipv6 host; Ok (h, ip, p)
    else
      ip' ← match ip with
            | Some i =>
                if Py.contains "[" i then
                  '(a, _) ← _parse_ipv6_server_string has_ipv6 i; Ok (Some a)
                else Ok ip
            | None => Ok ip
            end;
      '(h, p) ← _parse_ipv4_server_string host; Ok (h, ip', p).
Proof.
  intros E. unfold parse_server_string. rewrite E. simpl.
  destruct (Py.contains "[" host); [done|].
  destruct ip as [i|]; [|done].
  destruct (Py.contains "[" i); [|done].
  by destruct (_parse_ipv6_server_string has_ipv6 i) as [[a q]|e].
Qed.

(** C9. Parsing the target string "example.com:443{1.2.3.4}" returns host
    "example.com", forced IP "1.2.3.4" and port 443. *)
Theorem parse_server_string_forced_ip_example :
  parse_server_string has_ipv6 "example.com:443{1.2.3.4}"
  = Ok ("example.com", Some "1.2.3.4", Some 443).
Proof. reflexivity. Qed.

(** C1, amended. Once the '{...}' suffix is cut off: a working host string
    with '[' is parsed by the IPv6 routine alone, which gives host and
    port; otherwise host and port are those of the plain host[:port] parse
    of the working host string (no port when it has no ':'), and a forced
    IP with '[' only has its brackets removed by the IPv6 routine, whose
    port is dropped. *)
Theorem parse_server_string_precedence s host ip :
  extract_ip s = Ok (host, ip) →
  (Py.contains "[" host = true →
     parse_server_string has_ipv6 s =
       ('(h, p) ← _parse_ipv6_server_string has_ipv6 host; Ok (h, ip, p)))
  ∧ (Py.contains "[" host = false →
     ∀ h ip' p, parse_server_string has_ipv6 s = Ok (h, ip', p) →
       _parse_ipv4_server_string host = Ok (h, p)
       ∧ (Py.contains ":" host = false → h = host ∧ p = None)
       ∧ match ip with
         | Some i =>
             if Py.contains "[" i
             then ∃ a q, _parse_ipv6_server_string has_ipv6 i = Ok (a, q)
                         ∧ ip' = Some a
             else ip' = ip
         | None => ip' = None
         end)
  ∧ (Py.contains "[" host = false →
     ∀ h p, _parse_ipv4_server_string host = Ok (h, p) →
       match ip with
       | Some i =>
           if Py.contains "[" i
           then ∀ a q, _parse_ipv6_server_string has_ipv6 i = Ok (a, q) →
                       parse_server_string has_ipv6 s = Ok (h, Some a, p)
           else parse_server_string has_ipv6 s = Ok (h, ip, p)
       | None => parse_server_string has_ipv6 s = Ok (h, None, p)
       end).
Proof.
  intros E. rewrite (parse_server_string_unfold s host ip E).
  split_and!.
  - by intros ->.
  - intros -> h ip' p H.
    assert (∃ ip0, _parse_ipv4_server_string host = Ok (h, p) ∧ ip' = ip0 ∧
      match ip with
      | Some i =>
          if Py.contains "[" i
          then ∃ a q, _parse_ipv6_server_string has_ipv6 i = Ok (a, q)
                      ∧ ip0 = Some a
          else ip0 = ip
      | None => ip0 = None
      end) as (ip0 & H4 & -> & Hip).
    { destruct ip as [i|].
      - destruct (Py.contains "[" i).
        + destruct (_parse_ipv6_server_string has_ipv6 i) as [[a q]|e];
            [|done]. simpl in H.
          destruct (_parse_ipv4_server_string host) as [[h' p']|e]; [|done].
          simplify_eq/=. eauto 10.
        + simpl in H.
          destruct (_parse_ipv4_server_string host) as [[h' p']|e]; [|done].
          simplify_eq/=. eauto.
      - simpl in H.
        destruct (_parse_ipv4_server_string host) as [[h' p']|e]; [|done].
        simplify_eq/=. eauto. }
    split_and!; [done| |done].
    intros Hc. rewrite _parse_ipv4_no_port in H4 by done. by simplify_eq.
  - intros -> h p H4. rewrite H4. destruct ip as [i|]; [|done].
    destruct (Py.contains "[" i); [|done]. by intros a q ->.
Qed.

End ParserFacts.

Section PortFacts.

Variable has_ipv6 : bool.

Lemma _parse_ipv6_port server_str addr p :
  _parse_ipv6_server_string has_ipv6 server_str = Ok (addr, Some p) →
  ∃ tail seg, Py.split "]" server_str !! 1%nat = Some tail
              ∧ Py.split ":" tail !! 1%nat = Some seg ∧ Py.int seg = Some p.
Proof.
  unfold _parse_ipv6_server_string, Py.index.
  destruct (negb has_ipv6); [done|].
  destruct (Py.split "]" server_str !! 0%nat) as [hd|]; [|done]. simpl.
  destruct (Py.split "[" hd !! 1%nat) as [a|]; [|done]. simpl.
  destruct (Py.split "]" server_str !! 1%nat) as [tail|]; [|done]. simpl.
  destruct (Py.contains ":" tail); [|done].
  destruct (Py.split ":" tail !! 1%nat) as [seg|] eqn:Hs; [|done]. simpl.
  destruct (Py.int seg) as [q|] eqn:E; [|done]. intros [= <- <-].
  by exists tail, seg.
Qed.

Lemma _parse_ipv4_port_inv server_str h p :
  _parse_ipv4_server_string server_str = Ok (h, Some p) →
  ∃ seg, Py.split ":" server_str !! 1%nat = Some seg ∧ Py.int seg = Some p.
Proof.
  unfold _parse_ipv4_server_string, Py.index.
  destruct (Py.contains ":" server_str); [|done].
  destruct (Py.split ":" server_str !! 0%nat) as [hd|]; [|done]. simpl.
  destruct (Py.split ":" server_str !! 1%nat) as [seg|]; [|done]. simpl.
  destruct (Py.int seg) as [q|] eqn:E; [|done]. intros [= <- <-].
  by exists seg.
Qed.

(** C3, amended. The parser makes no range check: the port of a
    successfully parsed target string is the integer that [int] reads in
    the port segment (after the first ':' of a plain host, after the ']'
    of a bracketed one), and every integer written after a plain host,
    be it 0, negative or 99999999, comes back unchanged. *)
Theorem parse_server_string_port_unchecked s host ip :
  extract_ip s = Ok (host, ip) →
  (∀ h ip' p, parse_server_string has_ipv6 s = Ok (h, ip', Some p) →
     if Py.contains "[" host
     then ∃ tail seg, Py.split "]" host !! 1%nat = Some tail
                      ∧ Py.split ":" tail !! 1%nat = Some seg
                      ∧ Py.int seg = Some p
     else ∃ seg, Py.split ":" host !! 1%nat = Some seg ∧ Py.int seg = Some p)
  ∧ (Py.contains "{" host = false → Py.contains "[" host = false →
     Py.contains ":" host = false →
     ∀ n : Z, parse_server_string has_ipv6 (host +:+ String ":" (Py.str n))
              = Ok (host, None, Some n)).
Proof.
  intros E. split.
  - intros h ip' p. rewrite (parse_server_string_unfold _ s host ip E).
    destruct (Py.contains "[" host).
    + destruct (_parse_ipv6_server_string has_ipv6 host) as [[a q]|e] eqn:E6;
        [|done]. intros [= -> <- ->]. by eapply _parse_ipv6_port.
    + intros H. apply (_parse_ipv4_port_inv host h).
      destruct (match ip with Some _ => _ | None => _ end) as [ip0|];
        [|done]. simpl in H.
      destruct (_parse_ipv4_server_string host) as [[h' p']|]; [|done].
      by simplify_eq/=.
  - intros Hb Hk Hc n.
    set (t := host +:+ String ":" (Py.str n)).
    assert (Py.contains "{" t = false) as Hb'.
    { unfold t. rewrite contains_app, Hb. cbn [Py.contains orb].
      change (Ascii.eqb ":" "{") with false. cbn iota.
      by apply contains_str. }
    assert (Py.contains "[" t = false) as Hk'.
    { unfold t. rewrite contains_app, Hk. cbn [Py.contains orb].
      change (Ascii.eqb ":" "[") with false. cbn iota.
      by apply contains_str. }
    rewrite (parse_server_string_unfold _ t t None (extract_ip_plain t Hb')).
    rewrite Hk'. cbn [mbind result_bind].
    rewrite (_parse_ipv4_port t host (Py.str n) []).
    + by rewrite int_str.
    + unfold t. rewrite split_app by done. f_equal.
      apply split_no_sep. by apply contains_str.
Qed.



End PortFacts.

Lemma parse_server_string_precedence_witness :
  extract_ip "example.com{[::1]:443}" = Ok ("example.com", Some "[::1]:443")
  ∧ parse_server_string true "example.com{[::1]:443}"
    = Ok ("example.com", Some "::1", None).
Proof.
  split; [reflexivity|].
  destruct (parse_server_string_precedence true "example.com{[::1]:443}"
              "example.com" (Some "[::1]:443") eq_refl) as (_ & _ & H).
  exact (H eq_refl "example.com" None eq_refl "::1" (Some 443) eq_refl).
Defined.

(** C1, as stated, fails: the port read in a bracketed forced IP is
    dropped, and the plain parse is not run on a bracketed host. *)
Lemma parse_server_string_precedence_counterexample :
  ¬ (∀ s host i a q,
       extract_ip s = Ok (host, Some i) →
       Py.contains "[" host = false → Py.contains "[" i = true →
       Py.contains ":" host = false →
       _parse_ipv6_server_string true i = Ok (a, q) →
       ∃ h ip', parse_server_string true s = Ok (h, ip', q))
  ∧ ¬ (∀ s host ip e,
       extract_ip s = Ok (host, ip) →
       _parse_ipv4_server_string host = Raise e →
       ∃ e', parse_server_string true s = Raise e').
Proof.
  split.
  - intros H.
    destruct (H "example.com{[::1]:443}" "example.com" "[::1]:443" "::1"
                (Some 443) eq_refl eq_refl eq_refl eq_refl eq_refl)
      as (h & ip' & Hp).
    vm_compute in Hp. discriminate Hp.
  - intros H.
    destruct (H "[::1]:443" "[::1]:443" None BadPort eq_refl eq_refl)
      as (e' & Hp).
    vm_compute in Hp. discriminate Hp.
Qed.

Lemma parse_server_string_port_unchecked_witness :
  parse_server_string true "example.com:99999999"
  = Ok ("example.com", None, Some 99999999).
Proof.
  destruct (parse_server_string_port_unchecked true "example.com"
              "example.com" None eq_refl) as [_ H].
  exact (H eq_refl eq_refl eq_refl 99999999).
Defined.

(** C3, as stated, fails: ports outside [1, 65535] are returned. *)
Lemma parse_server_string_port_range_counterexample :
  ¬ (∀ s h ip p,
       parse_server_string true s = Ok (h, ip, Some p) → 1 ≤ p ≤ 65535).
Proof.
  intros H.
  pose proof (H "example.com:99999999" "example.com" None 99999999 eq_refl).
  lia.
Qed.


(** ** Reading the targets file *)

Section TargetsFile.

Lemma rstrip_keeps_head sp a r :
  sp a = false → Py.rstrip sp (String a r) = String a (Py.rstrip sp r).
Proof. intros H. simpl. rewrite H. by destruct (Py.rstrip sp r). Qed.




Lemma read_targets_filter lines args_target_list :
  read_targets lines args_target_list =
    args_target_list ++
    map (Py.strip Py.isspace_bytes)
      (List.filter
         (λ target, Py.truthy (Some (Py.strip Py.isspace_bytes target))
                    && negb (Py.startswith "#" target)) lines).
Proof.
  unfold read_targets. revert args_target_list.
  induction lines as [|target lines IH]; intros acc;
    cbn [fold_left List.filter].
  - by rewrite app_nil_r.
  - rewrite IH. unfold add_target.
    destruct (Py.truthy _); cbn [andb]; [|done].
    destruct (Py.startswith "#" target); cbn [negb map]; [done|].
    by rewrite <- app_assoc.
Qed.


End TargetsFile.


(** ** Interleaving *)

Section Interleaving.

Context {A : Type}.
Implicit Types l : list A.

Lemma Interleave_length l1 l2 l :
  Interleave l1 l2 l → (length l1 + length l2 = length l)%nat.
Proof. induction 1; simpl; lia. Qed.

Lemma Interleave_Permutation l1 l2 l : Interleave l1 l2 l → l1 ++ l2 ≡ₚ l.
Proof.
  induction 1 as [|x l1 l2 l _ IH|x l1 l2 l _ IH]; simpl.
  - done.
  - by rewrite IH.
  - by rewrite <- Permutation_middle, IH.
Qed.

Lemma Interleave_sublist l1 l2 l :
  Interleave l1 l2 l → l1 `sublist_of` l ∧ l2 `sublist_of` l.
Proof.
  induction 1 as [|x l1 l2 l _ [IH1 IH2]|x l1 l2 l _ [IH1 IH2]]; split;
    try done; by constructor.
Qed.

End Interleaving.

(** ** Option checks *)

Section CommandLineFacts.

Context (has_ipv6 : bool) (open_file : string → option string)
  (decode_utf8 : string → result string) (Creds Tunnel : Type)
  (new_creds : option string → option string → OpenSslFileTypeEnum →
               string → result Creds)
  (from_url : string → result Tunnel) (World : Type)
  (new_info : string → option Z → option string → TlsWrappedProtocolEnum →
              option string → option string → option Creds → option Tunnel →
              World → result (ServerConnectivityInfo Creds Tunnel) * World).

Local Abbreviation run :=
  (parse_command_line has_ipv6 open_file decode_utf8 Creds Tunnel new_creds
     from_url World new_info).
Local Abbreviation options :=
  (resolve_options open_file Creds Tunnel new_creds from_url).



(** The lines of the targets file that become targets. *)
Lemma handle_targets_in_file args path content :
  targets_in args = Some path → Py.truthy (Some path) = true →
  open_file path = Some content →
  handle_targets_in open_file args [] =
    match read_targets (Py.readlines content) [] with
    | [] => Raise (CommandLineParsingError "No targets to scan.")
    | t :: ts => Ok (t :: ts)
    end.
Proof.
  intros Hin Ht Hf. unfold handle_targets_in. rewrite Hin, Ht. simpl.
  rewrite Hf. simpl. by destruct (read_targets _ _).
Qed.


Lemma add_option_has opt_str parser parser' :
  add_option opt_str parser = Ok parser' → has_option parser' opt_str = true.
Proof.
  unfold add_option, has_option. destruct (bool_decide _); [done|].
  intros [= <-]. apply bool_decide_eq_true. set_solver.
Qed.

Lemma __init___has_regular available_plugins self :
  __init__ available_plugins = Ok self →
  has_option (_parser self) "--regular" = true.
Proof.
  unfold __init__.
  destruct (_add_default_options _) as [p1|]; [|done]. simpl.
  destruct (_add_plugin_options _ p1) as [p2|]; [|done]. simpl.
  destruct (add_option "--regular" p2) as [p3|] eqn:E; [|done]. simpl.
  intros [= <-]. by eapply add_option_has.
Qed.

Lemma setattr_all_lookup (cmds : list string) v args cmd :
  cmd ∈ cmds →
  plugin_values (fold_left (λ a c, setattr c v a) cmds args) !! cmd = Some v.
Proof.
  revert args. induction cmds as [|c cmds IH] using rev_ind; intros args.
  - by intros ?%elem_of_nil.
  - rewrite fold_left_app. simpl. intros [Hin| ->%list_elem_of_singleton]%elem_of_app.
    + destruct (decide (c = cmd)) as [->|Hne].
      * apply lookup_insert_eq.
      * rewrite lookup_insert_ne by done. by apply IH.
    + apply lookup_insert_eq.
Qed.

Lemma setattr_all_fields (cmds : list string) v args :
  let args' := fold_left (λ a c, setattr c v a) cmds args in
  regular args' = regular args ∧ cert args' = cert args ∧ key args' = key args
  ∧ starttls args' = starttls args ∧ xml_file args' = xml_file args
  ∧ json_file args' = json_file args ∧ quiet args' = quiet args.
Proof.
  revert args. induction cmds as [|c cmds IH]; intros args; [done|].
  simpl. apply (IH (setattr c v args)).
Qed.

Lemma handle_regular_fields self args :
  let args' := handle_regular self args in
  cert args' = cert args ∧ key args' = key args
  ∧ starttls args' = starttls args ∧ xml_file args' = xml_file args
  ∧ json_file args' = json_file args ∧ quiet args' = quiet args.
Proof.
  unfold handle_regular. destruct (has_option _ _); [|done].
  destruct (is_true _); [|done].
  destruct (setattr_all_fields REGULAR_CMD (Py.VBool true)
              (set_regular false args)) as (_ & ? & ? & ? & ? & ? & ?).
  done.
Qed.

(** What a returning run gives back as options. *)
Lemma parse_command_line_returns_options self args positional w good bad args' w' :
  run self (args, positional) w = (Ok (good, bad, args'), w') →
  args' = handle_regular self args.
Proof.
  unfold parse_command_line, resolve_options.
  destruct (handle_targets_in _ _ _) as [ts|]; [|done]. simpl.
  destruct (check_output_options _) as [[]|]; [|done]. simpl.
  destruct (check_client_cert _ _ _) as [creds|]; [|done]. simpl.
  destruct (check_https_tunnel _ _ _) as [tun|]; [|done]. simpl.
  destruct (check_starttls _) as [proto|]; [|done]. simpl.
  destruct (check_nb_retries _) as [[]|]; [|done]. simpl.
  destruct (create_server_infos _ _ _ _ _ _ _ _ _ _ _ _ _ _)
    as [[[g b]|] w1]; [|done].
  destruct (handle_http_get _ _) as [g'|]; [|done]. by intros [= _ _ <- _].
Qed.

(** C8. With --regular set, the fourteen flags of [REGULAR_CMD] are all
    enabled and the convenience flag itself is cleared; a run that
    returns hands back the options in this state. *)
Theorem parse_command_line_regular available_plugins self args :
  __init__ available_plugins = Ok self →
  regular args = Some true →
  REGULAR_CMD = ["sslv2"; "sslv3"; "tlsv1"; "tlsv1_1"; "tlsv1_2"; "reneg";
                 "resum"; "certinfo_basic"; "http_get";
                 "hide_rejected_ciphers"; "compression"; "heartbleed";
                 "openssl_ccs"; "fallback"]
  ∧ regular (handle_regular self args) = Some false
  ∧ (∀ cmd, cmd ∈ REGULAR_CMD →
       plugin_values (handle_regular self args) !! cmd = Some (Py.VBool true))
  ∧ (∀ positional w good bad args' w',
       run self (args, positional) w = (Ok (good, bad, args'), w') →
       regular args' = Some false
       ∧ ∀ cmd, cmd ∈ REGULAR_CMD →
           plugin_values args' !! cmd = Some (Py.VBool true)).
Proof.
  intros Hinit Hreg.
  assert (regular (handle_regular self args) = Some false
          ∧ ∀ cmd, cmd ∈ REGULAR_CMD →
              plugin_values (handle_regular self args) !! cmd
              = Some (Py.VBool true)) as [H1 H2].
  { unfold handle_regular.
    rewrite (__init___has_regular _ _ Hinit), Hreg. cbn [is_true]. split.
    - by destruct (setattr_all_fields REGULAR_CMD (Py.VBool true)
                     (set_regular false args)) as [-> _].
    - intros cmd Hin. by apply setattr_all_lookup. }
  split_and!; [done..|].
  intros positional w good bad args' w' Hrun.
  by rewrite (parse_command_line_returns_options _ _ _ _ _ _ _ _ Hrun).
Qed.




(** ** The loop over the targets and the two adjustments *)

Local Abbreviation Info := (ServerConnectivityInfo Creds Tunnel).
Local Abbreviation loop :=
  (create_server_infos has_ipv6 decode_utf8 Creds Tunnel World new_info).
Local Abbreviation attempt :=
  (create_server_info has_ipv6 Creds Tunnel World new_info).

Implicit Types (good resolved : list Info) (bad : list FailedServerScan).

Lemma create_server_info_string args proto creds tun s w (info : Info) w' :
  attempt args proto creds tun s w = (Ok info, w') → server_string info = s.
Proof.
  unfold create_server_info.
  destruct (parse_server_string has_ipv6 s) as [[[h ip] p]|]; [|done].
  destruct (new_info _ _ _ _ _ _ _ _ _) as [[i|] w1]; [|done].
  by intros [= <- _].
Qed.

Lemma create_server_infos_partition args proto creds tun targets :
  ∀ good bad w good' bad' w',
    loop args proto creds tun targets good bad w = (Ok (good', bad'), w') →
    ∃ decoded g b,
      Forall2 (λ t d, decode_utf8 t = Ok d) targets decoded
      ∧ good' = good ++ g ∧ bad' = bad ++ b
      ∧ Interleave (map server_string g) (map failed_server_string b) decoded.
Proof.
  induction targets as [|t targets IH]; intros good bad w good' bad' w'.
  - simpl. intros [= <- <- _]. exists [], [], [].
    rewrite !app_nil_r. repeat split; constructor.
  - cbn [create_server_infos].
    destruct (decode_utf8 t) as [s|] eqn:Ed; [|done].
    destruct (attempt args proto creds tun s w) as [[info|e] w1] eqn:Ea.
    + intros H. destruct (IH _ _ _ _ _ _ H) as (decoded & g & b & Hd & -> & -> & Hi).
      exists (s :: decoded), (info :: g), b. split_and!.
      * by constructor.
      * by rewrite <- app_assoc.
      * done.
      * simpl. rewrite (create_server_info_string _ _ _ _ _ _ _ _ Ea).
        by constructor.
    + destruct e; try (by destruct (is_ValueError _)).
      intros H. destruct (IH _ _ _ _ _ _ H) as (decoded & g & b & Hd & -> & -> & Hi).
      exists (s :: decoded), g, ({| failed_server_string := s;
        failed_reason := ServerConnectivityError error_msg |} :: b).
      split_and!.
      * by constructor.
      * done.
      * by rewrite <- app_assoc.
      * simpl. by constructor.
Qed.

(** The loop returns as soon as every string decodes and no attempt
    raises anything but a connectivity error. *)
Lemma create_server_infos_returns args proto creds tun targets :
  (∀ t s w, decode_utf8 t = Ok s →
     ∀ e w', attempt args proto creds tun s w = (Raise e, w') →
             ∃ m, e = ServerConnectivityError m) →
  (∀ t, t ∈ targets → ∃ s, decode_utf8 t = Ok s) →
  ∀ good bad w, ∃ good' bad' w',
    loop args proto creds tun targets good bad w = (Ok (good', bad'), w').
Proof.
  intros Herr. induction targets as [|t targets IH]; intros Hdec good bad w.
  - by eexists _, _, _.
  - cbn [create_server_infos].
    destruct (Hdec t) as [s Hs]; [set_solver|]. rewrite Hs.
    destruct (attempt args proto creds tun s w) as [[info|e] w1] eqn:Ea.
    + apply IH. intros ??. apply Hdec. set_solver.
    + destruct (Herr t s w Hs e w1 Ea) as [m ->].
      apply IH. intros ??. apply Hdec. set_solver.
Qed.

(** What a run that returns has gone through. *)
Lemma parse_command_line_inv self args positional w good bad args' w' :
  run self (args, positional) w = (Ok (good, bad, args'), w') →
  ∃ targets creds tun proto resolved http_get,
    handle_targets_in open_file args positional = Ok targets
    ∧ args' = handle_regular self args
    ∧ loop args' proto creds tun targets [] [] w = (Ok (resolved, bad), w')
    ∧ getattr "http_get" args' = Ok http_get
    ∧ handle_http_get args' (handle_starttls_auto args' resolved) = Ok good.
Proof.
  unfold parse_command_line, resolve_options.
  destruct (handle_targets_in _ _ _) as [ts|]; [|done]. simpl.
  destruct (check_output_options _) as [[]|]; [|done]. simpl.
  destruct (check_client_cert _ _ _) as [creds|]; [|done]. simpl.
  destruct (check_https_tunnel _ _ _) as [tun|]; [|done]. simpl.
  destruct (check_starttls _) as [proto|]; [|done]. simpl.
  destruct (check_nb_retries _) as [[]|]; [|done]. simpl.
  destruct (create_server_infos _ _ _ _ _ _ _ _ _ _ _ _ _ _)
    as [[[g b]|] w1] eqn:El; [|done].
  destruct (handle_http_get _ _) as [g'|] eqn:Eh; [|done].
  intros [= <- <- <- <-].
  assert (∃ v, getattr "http_get" (handle_regular self args) = Ok v) as [v Hv].
  { revert Eh. unfold handle_http_get.
    destruct (getattr _ _) as [v|]; [eauto|done]. }
  by exists ts, creds, tun, proto, g, v.
Qed.

(** Each adjustment changes [tls_wrapped_protocol] only. *)
Lemma handle_starttls_auto_strings args resolved :
  Forall2 (λ r info : Info, port info = port r
                            ∧ server_string info = server_string r)
    resolved (handle_starttls_auto args resolved).
Proof.
  unfold handle_starttls_auto. destruct (bool_decide _).
  - induction resolved as [|r l IH]; cbn [map]; constructor; [|exact IH].
    generalize (STARTTLS_PROTOCOL_DICT !! (inr (port r) : string + Z)).
    intros [p|]; split; reflexivity.
  - apply Forall_Forall2_diag, Forall_forall. intros; split; reflexivity.
Qed.

Lemma handle_http_get_strings args resolved good :
  handle_http_get args resolved = Ok good →
  Forall2 (λ r info : Info, port info = port r
                            ∧ server_string info = server_string r)
    resolved good.
Proof.
  unfold handle_http_get. destruct (getattr _ _) as [v|]; [|done].
  cbn [mbind result_bind]. destruct (Py.bool_of v); intros [= <-].
  - induction resolved as [|r l IH]; cbn [map]; constructor; [|exact IH].
    destruct (port r =? 443); split; reflexivity.
  - apply Forall_Forall2_diag, Forall_forall. intros; split; reflexivity.
Qed.

Lemma same_strings (l l' : list Info) :
  Forall2 (λ r info : Info, port info = port r
                            ∧ server_string info = server_string r) l l' →
  map server_string l' = map server_string l ∧ length l' = length l.
Proof.
  induction 1 as [|r info l l' [_ Hs] _ [IH1 IH2]]; [done|].
  cbn [map length]. by rewrite Hs, IH1, IH2.
Qed.

Lemma adjustments_strings args resolved good :
  handle_http_get args (handle_starttls_auto args resolved) = Ok good →
  map server_string good = map server_string resolved
  ∧ length good = length resolved.
Proof.
  intros [H1 H2]%handle_http_get_strings%same_strings.
  destruct (same_strings _ _ (handle_starttls_auto_strings args resolved))
    as [H3 H4].
  split; congruence.
Qed.

(** C2. When a run returns, every target string of the batch has gone,
    once decoded, either to the list of descriptors or to the list of
    failures, in the order of the batch: the two lists have together as
    many entries as the batch has strings, and the strings they keep are
    those of the batch. *)
Theorem parse_command_line_partition self args positional w good bad args' w' :
  run self (args, positional) w = (Ok (good, bad, args'), w') →
  ∃ targets decoded,
    handle_targets_in open_file args positional = Ok targets
    ∧ Forall2 (λ t d, decode_utf8 t = Ok d) targets decoded
    ∧ (length good + length bad = length targets)%nat
    ∧ Interleave (map server_string good) (map failed_server_string bad)
        decoded
    ∧ map server_string good ++ map failed_server_string bad ≡ₚ decoded.
Proof.
  intros (targets & creds & tun & proto & resolved & v & Ht & -> & Hl & _
          & Hadj)%parse_command_line_inv.
  destruct (create_server_infos_partition _ _ _ _ _ _ _ _ _ _ _ Hl)
    as (decoded & g & b & Hd & Hg & Hb & Hi). simpl in Hg, Hb. subst g b.
  destruct (adjustments_strings _ _ _ Hadj) as [Hs Hlen].
  exists targets, decoded. rewrite Hs. split_and!; [done..| |done|].
  - apply Interleave_length in Hi. rewrite !length_map in Hi.
    rewrite Hlen, Hi. symmetry. by eapply Forall2_length.
  - by apply Interleave_Permutation.
Qed.

Lemma port_443_not_in_table :
  STARTTLS_PROTOCOL_DICT !! (inr 443 : string + Z) = None.
Proof. vm_compute. reflexivity. Qed.

Lemma port_587_in_table :
  STARTTLS_PROTOCOL_DICT !! (inr 587 : string + Z) = Some STARTTLS_SMTP.
Proof. vm_compute. reflexivity. Qed.

Lemma Ok_eq {A} (a b : A) : Ok a = Ok b → a = b.
Proof. by intros [= ->]. Qed.

Lemma starttls_auto_table (resolved : list Info) info protocol :
  info ∈ map (λ r : Info,
                match STARTTLS_PROTOCOL_DICT !! inr (port r) with
                | Some p => set_tls_wrapped_protocol p r
                | None => r
                end) resolved →
  STARTTLS_PROTOCOL_DICT !! inr (port info) = Some protocol →
  tls_wrapped_protocol info = protocol.
Proof.
  intros (r & -> & _)%list_elem_of_fmap.
  destruct (STARTTLS_PROTOCOL_DICT !! inr (port r)) as [p|] eqn:E.
  - change (port (set_tls_wrapped_protocol p r)) with (port r).
    rewrite E. by intros [= <-].
  - by rewrite E.
Qed.

Lemma http_get_table (l : list Info) info protocol :
  info ∈ map (λ r : Info,
                if port r =? 443 then set_tls_wrapped_protocol HTTPS r else r)
             l →
  STARTTLS_PROTOCOL_DICT !! inr (port info) = Some protocol →
  info ∈ l.
Proof.
  intros (r & -> & Hin)%list_elem_of_fmap.
  destruct (port r =? 443) eqn:E; [|done].
  change (port (set_tls_wrapped_protocol HTTPS r)) with (port r).
  apply Z.eqb_eq in E. by rewrite E, port_443_not_in_table.
Qed.

(** C6. With --starttls=auto, the pass that follows the loop gives every
    descriptor whose port is a key of [STARTTLS_PROTOCOL_DICT] the
    protocol found there and leaves the other descriptors as they are; in
    what a run returns, a descriptor on such a port has the protocol of
    the table, and one on port 587 has [STARTTLS_SMTP]. *)
Theorem parse_command_line_starttls_auto self args positional w good bad args' w' :
  starttls args = Some "auto" →
  run self (args, positional) w = (Ok (good, bad, args'), w') →
  (∀ resolved : list Info,
     handle_starttls_auto args' resolved =
       map (λ info,
              match STARTTLS_PROTOCOL_DICT !! inr (port info) with
              | Some protocol => set_tls_wrapped_protocol protocol info
              | None => info
              end) resolved)
  ∧ (∀ info protocol, info ∈ good →
       STARTTLS_PROTOCOL_DICT !! inr (port info) = Some protocol →
       tls_wrapped_protocol info = protocol)
  ∧ (∀ info, info ∈ good → port info = 587 →
       tls_wrapped_protocol info = STARTTLS_SMTP).
Proof.
  intros Hauto (targets & creds & tun & proto & resolved & v & Ht & -> & Hl
                & Hv & Hadj)%parse_command_line_inv.
  destruct (handle_regular_fields self args) as (_ & _ & Hs & _).
  assert (∀ l : list Info, handle_starttls_auto (handle_regular self args) l =
    map (λ info, match STARTTLS_PROTOCOL_DICT !! inr (port info) with
                 | Some protocol => set_tls_wrapped_protocol protocol info
                 | None => info
                 end) l) as Hpass.
  { intros l. unfold handle_starttls_auto. rewrite Hs, Hauto.
    rewrite bool_decide_eq_true_2 by reflexivity. reflexivity. }
  assert (∀ info protocol, info ∈ good →
    STARTTLS_PROTOCOL_DICT !! inr (port info) = Some protocol →
    tls_wrapped_protocol info = protocol) as Htable.
  { intros info protocol Hin Hp. revert Hadj. rewrite Hpass.
    unfold handle_http_get. rewrite Hv. cbn [mbind result_bind].
    destruct (Py.bool_of v); intros <-%Ok_eq.
    - eapply starttls_auto_table; [|exact Hp].
      eapply http_get_table; [exact Hin|exact Hp].
    - eapply starttls_auto_table; [exact Hin|exact Hp]. }
  split_and!; [exact Hpass|exact Htable|].
  intros info Hin H587. apply Htable; [exact Hin|].
  rewrite H587. apply port_587_in_table.
Qed.

End CommandLineFacts.

(** ** Runs in the sample environment *)


Lemma parse_command_line_regular_witness :
  plugin_values (handle_regular Sample.parser Sample.regular_scan)
    !! "heartbleed" = Some (Py.VBool true).
Proof.
  destruct (parse_command_line_regular true Sample.open_file
              Sample.decode_utf8 unit unit Sample.new_credentials
              Sample.from_url (list string) Sample.new_info
              [["--http_get"]] Sample.parser Sample.regular_scan
              eq_refl eq_refl) as (_ & _ & H & _).
  apply H. unfold REGULAR_CMD. set_solver.
Defined.


Lemma parse_command_line_partition_witness :
  ∃ good bad args' w',
    Sample.run Sample.no_options Sample.batch = (Ok (good, bad, args'), w')
    ∧ (length good + length bad = 4)%nat
    ∧ map server_string good = ["example.com:443{1.2.3.4}"; "a.example.org:587"]
    ∧ map failed_server_string bad = ["down.invalid"; "bad:port"].
Proof.
  eexists _, _, _, _. split; [reflexivity|].
  destruct (parse_command_line_partition true Sample.open_file
              Sample.decode_utf8 unit unit Sample.new_credentials
              Sample.from_url (list string) Sample.new_info Sample.parser
              Sample.no_options Sample.batch [] _ _ _ _ eq_refl)
    as (targets & decoded & Ht & _ & Hlen & _).
  split; [|split; reflexivity].
  rewrite Hlen. injection Ht as <-. reflexivity.
Defined.

Lemma parse_command_line_starttls_auto_witness :
  ∃ good bad args' w',
    Sample.run Sample.auto_starttls [] = (Ok (good, bad, args'), w')
    ∧ map (λ info, (hostname info, port info, tls_wrapped_protocol info)) good
      = [("mail.example.com", 587, STARTTLS_SMTP);
         ("#staging", 443, PLAIN_TLS); ("www.example.com", 443, PLAIN_TLS)]
    ∧ ∀ info, info ∈ good → port info = 587 →
              tls_wrapped_protocol info = STARTTLS_SMTP.
Proof.
  eexists _, _, _, _. split; [reflexivity|]. split; [reflexivity|].
  destruct (parse_command_line_starttls_auto true Sample.open_file
              Sample.decode_utf8 unit unit Sample.new_credentials
              Sample.from_url (list string) Sample.new_info Sample.parser
              Sample.auto_starttls [] [] _ _ _ _ eq_refl eq_refl)
    as (_ & _ & H).
  exact H.
Defined.

(** ** More on the target string grammar *)

Section Grammar.

Variable has_ipv6 : bool.

Lemma split_pieces_no_sep sep s :
  Forall (λ x, Py.contains sep x = false) (Py.split sep s).
Proof.
  induction s as [|a s IH]; cbn [Py.split]; [by repeat constructor|].
  destruct (Ascii.eqb a sep) eqn:E; [by constructor|].
  destruct (Py.split sep s) as [|x xs]; [by repeat constructor; cbn; rewrite E|].
  inversion_clear IH as [|? ? Hx Hxs]. constructor; [|done].
  cbn [Py.contains]. by rewrite E.
Qed.

Lemma split_pieces_no_char c sep s :
  Py.contains c s = false →
  Forall (λ x, Py.contains c x = false) (Py.split sep s).
Proof.
  induction s as [|a s IH]; cbn [Py.split Py.contains]; [by repeat constructor|].
  destruct (Ascii.eqb a c) eqn:Ec; [done|]. intros H. specialize (IH H).
  destruct (Ascii.eqb a sep); [by constructor|].
  destruct (Py.split sep s) as [|x xs];
    [by repeat constructor; cbn; rewrite Ec|].
  inversion_clear IH as [|? ? Hx Hxs]. constructor; [|done].
  cbn [Py.contains]. by rewrite Ec.
Qed.

Lemma remove_no_char c s : Py.contains c (Py.remove c s) = false.
Proof.
  induction s as [|a s IH]; [done|]. cbn [Py.remove].
  destruct (Ascii.eqb a c) eqn:E; [done|]. cbn [Py.contains]. by rewrite E.
Qed.

Lemma remove_other c d s :
  Py.contains d s = false → Py.contains d (Py.remove c s) = false.
Proof.
  induction s as [|a s IH]; [done|]. cbn [Py.remove Py.contains].
  destruct (Ascii.eqb a d) eqn:Ed; [done|]. intros H.
  destruct (Ascii.eqb a c); [by apply IH|]. cbn [Py.contains].
  rewrite Ed. by apply IH.
Qed.

Lemma remove_id c s : Py.contains c s = false → Py.remove c s = s.
Proof.
  induction s as [|a s IH]; [done|]. cbn [Py.remove Py.contains].
  destruct (Ascii.eqb a c); [done|]. intros H. by rewrite IH.
Qed.

Lemma remove_app c x y : Py.remove c (x +:+ y) = Py.remove c x +:+ Py.remove c y.
Proof.
  induction x as [|a x IH]; [done|]. simpl.
  destruct (Ascii.eqb a c); simpl; by rewrite IH.
Qed.

Lemma append_empty_r s : s +:+ EmptyString = s.
Proof.
  induction s as [|a s IH]; [done|].
  change (String a s +:+ EmptyString) with (String a (s +:+ EmptyString)).
  by rewrite IH.
Qed.

Lemma append_assoc (x y z : string) : (x +:+ y) +:+ z = x +:+ (y +:+ z).
Proof.
  induction x as [|a x IH]; [done|].
  change ((String a x +:+ y) +:+ z) with (String a ((x +:+ y) +:+ z)).
  by rewrite IH.
Qed.

(** The '{...}' suffix, cut off. *)
Lemma extract_ip_suffix host ip :
  Py.contains "{" host = false →
  Py.contains "{" ip = false → Py.contains "}" ip = false →
  extract_ip (host +:+ String "{" (ip +:+ String "}" EmptyString))
  = Ok (host, Some ip).
Proof.
  intros Hh Hi1 Hi2. unfold extract_ip.
  rewrite !contains_app. cbn [Py.contains]. rewrite !contains_app.
  cbn [Py.contains]. rewrite Hh, Hi2.
  change (Ascii.eqb "{" "{") with true. change (Ascii.eqb "{" "}") with false.
  change (Ascii.eqb "}" "}") with true. cbn [orb andb].
  rewrite split_app by done.
  rewrite (split_no_sep "{" (ip +:+ String "}" EmptyString)).
  - cbn [Py.index lookup list_lookup mbind result_bind].
    rewrite remove_app, remove_id by done. cbn [Py.remove].
    change (Ascii.eqb "}" "}") with true. cbn iota.
    rewrite orb_true_r. by rewrite append_empty_r.
  - rewrite contains_app, Hi1. done.
Qed.


Lemma contains_colon_str c n :
  c = "{"%char ∨ c = "["%char ∨ c = ":"%char ∨ c = "}"%char ∨ c = "]"%char →
  Py.contains c (Py.str n) = false.
Proof.
  intros H. apply contains_str; by destruct H as [->|[->|[->|[->| ->]]]].
Qed.

(** X1. The documented form host:port{ip}: a host without ':', '[' and
    '{', any integer port and a forced IP without braces and '[' come back
    as they were written; without the port, the port is [None]. *)
Theorem parse_server_string_host_port_ip host ip (n : Z) :
  Py.contains ":" host = false → Py.contains "[" host = false →
  Py.contains "{" host = false →
  Py.contains "{" ip = false → Py.contains "}" ip = false →
  Py.contains "[" ip = false →
  parse_server_string has_ipv6
    ((host +:+ String ":" (Py.str n)) +:+ String "{" (ip +:+ String "}" EmptyString))
  = Ok (host, Some ip, Some n)
  ∧ parse_server_string has_ipv6
      (host +:+ String "{" (ip +:+ String "}" EmptyString))
    = Ok (host, Some ip, None).
Proof.
  intros Hc Hk Hb Hi1 Hi2 Hi3. split.
  - rewrite (parse_server_string_unfold _ _ (host +:+ String ":" (Py.str n))
               (Some ip)).
    + rewrite contains_app, Hk. cbn [Py.contains orb].
      change (Ascii.eqb ":" "[") with false. cbn iota.
      rewrite contains_colon_str by auto. rewrite Hi3.
      cbn [mbind result_bind].
      rewrite (_parse_ipv4_port _ host (Py.str n) []).
      * by rewrite int_str.
      * rewrite split_app by done. f_equal.
        apply split_no_sep, contains_colon_str; auto.
    + apply extract_ip_suffix; [|done..].
      rewrite contains_app, Hb. cbn [Py.contains orb].
      change (Ascii.eqb ":" "{") with false. cbn iota.
      apply contains_colon_str; auto.
  - rewrite (parse_server_string_unfold _ _ host (Some ip))
      by by apply extract_ip_suffix.
    rewrite Hk, Hi3. cbn [mbind result_bind].
    by rewrite _parse_ipv4_no_port.
Qed.

(** X2. The bracketed form on a platform with IPv6: "[addr]:port" gives
    the address between the brackets (which may hold ':') and the port,
    "[addr]" gives the address and no port. *)
Theorem parse_server_string_bracketed addr (n : Z) :
  Py.contains "[" addr = false → Py.contains "]" addr = false →
  Py.contains "{" addr = false →
  parse_server_string true
    (String "[" (addr +:+ String "]" (String ":" (Py.str n))))
  = Ok (addr, None, Some n)
  ∧ parse_server_string true (String "[" (addr +:+ String "]" EmptyString))
    = Ok (addr, None, None).
Proof.
  intros Hk1 Hk2 Hb.
  assert (∀ rest, Py.contains "]" rest = false →
    Py.split "]" (String "[" (addr +:+ String "]" rest))
    = [String "[" addr; rest]) as Hsplit.
  { intros rest Hr.
    change (String "[" (addr +:+ String "]" rest))
      with (String "[" addr +:+ String "]" rest).
    rewrite split_app by (cbn [Py.contains]; by rewrite Hk2).
    by rewrite (split_no_sep "]" rest). }
  assert (Py.split "[" (String "[" addr) = [EmptyString; addr]) as Haddr.
  { cbn [Py.split]. change (Ascii.eqb "[" "[") with true. cbn iota.
    by rewrite split_no_sep. }
  split.
  - set (t := String "[" (addr +:+ String "]" (String ":" (Py.str n)))).
    rewrite (parse_server_string_unfold true t t None).
    + unfold t. cbn [Py.contains].
      change (Ascii.eqb "[" "[") with true. cbn iota.
      unfold _parse_ipv6_server_string. cbn [negb].
      rewrite Hsplit
        by (cbn [Py.contains]; change (Ascii.eqb ":" "]") with false;
            cbn iota; apply contains_colon_str; auto).
      cbn [Py.index lookup list_lookup mbind result_bind]. rewrite Haddr.
      cbn [Py.index lookup list_lookup mbind result_bind Py.contains].
      change (Ascii.eqb ":" ":") with true. cbn iota.
      cbn [Py.split]. change (Ascii.eqb ":" ":") with true. cbn iota.
      rewrite split_no_sep by (apply contains_colon_str; auto).
      cbn [Py.index lookup list_lookup mbind result_bind].
      by rewrite int_str.
    + apply extract_ip_plain. unfold t. cbn [Py.contains].
      change (Ascii.eqb "[" "{") with false. cbn iota.
      rewrite contains_app, Hb. cbn [Py.contains orb].
      change (Ascii.eqb "]" "{") with false.
      change (Ascii.eqb ":" "{") with false. cbn iota.
      apply contains_colon_str; auto.
  - set (t := String "[" (addr +:+ String "]" EmptyString)).
    rewrite (parse_server_string_unfold true t t None).
    + unfold t. cbn [Py.contains].
      change (Ascii.eqb "[" "[") with true. cbn iota.
      unfold _parse_ipv6_server_string. cbn [negb].
      rewrite Hsplit by done.
      cbn [Py.index lookup list_lookup mbind result_bind]. rewrite Haddr.
      by cbn [Py.index lookup list_lookup mbind result_bind Py.contains].
    + apply extract_ip_plain. unfold t. cbn [Py.contains].
      change (Ascii.eqb "[" "{") with false. cbn iota.
      rewrite contains_app, Hb. cbn [Py.contains orb].
      by change (Ascii.eqb "]" "{") with false.
Qed.

(** X3. On a platform without IPv6, a target whose working host string
    or whose forced IP holds '[' is refused with the no-IPv6 error,
    whatever else it holds; a string with '[' and no '{' is such a
    target. *)
Theorem parse_server_string_no_ipv6 s host ip :
  extract_ip s = Ok (host, ip) →
  (Py.contains "[" host = true ∨ ∃ i, ip = Some i ∧ Py.contains "[" i = true) →
  parse_server_string false s = Raise NoIPv6.
Proof.
  intros E H. rewrite (parse_server_string_unfold _ s host ip E).
  destruct (Py.contains "[" host) eqn:Hk; [done|].
  destruct H as [?|(i & -> & Hi)]; [done|]. by rewrite Hi.
Qed.

Lemma parse_server_string_no_ipv6_plain s :
  Py.contains "{" s = false → Py.contains "[" s = true →
  parse_server_string false s = Raise NoIPv6.
Proof.
  intros Hb Hk. apply (parse_server_string_no_ipv6 s s None); [|by left].
  by apply extract_ip_plain.
Qed.

(** X4. With IPv6, a working host string that holds '[' but whose text
    before the first ']' holds no '[', or that holds no ']' at all, makes
    [parse_server_string] raise [IndexError], which is not the error of a
    malformed server string. *)
Theorem parse_server_string_unbalanced_bracket s host ip :
  extract_ip s = Ok (host, ip) →
  Py.contains "[" host = true →
  (Py.contains "]" host = false
   ∨ ∃ hd, Py.split "]" host !! 0%nat = Some hd ∧ Py.contains "[" hd = false) →
  parse_server_string true s = Raise IndexError.
Proof.
  intros E Hk H. rewrite (parse_server_string_unfold _ s host ip E), Hk.
  unfold _parse_ipv6_server_string. cbn [negb].
  destruct H as [Hc|(hd & Hhd & Hc)].
  - rewrite (split_no_sep "]" host Hc).
    cbn [Py.index lookup list_lookup mbind result_bind].
    destruct (split_with_sep "[" host Hk) as (x & y & l & ->).
    by cbn [Py.index lookup list_lookup mbind result_bind].
  - unfold Py.index. rewrite Hhd. cbn [mbind result_bind].
    by rewrite (split_no_sep "[" hd Hc).
Qed.

Lemma lookup_split_no_sep sep s i x :
  Py.split sep s !! i = Some x → Py.contains sep x = false.
Proof.
  intros H. pose proof (split_pieces_no_sep sep s) as HF.
  by eapply Forall_lookup_1 in HF.
Qed.

Lemma lookup_split_no_char c sep s i x :
  Py.contains c s = false → Py.split sep s !! i = Some x →
  Py.contains c x = false.
Proof.
  intros Hc H. pose proof (split_pieces_no_char c sep s Hc) as HF.
  by eapply Forall_lookup_1 in HF.
Qed.

Lemma extract_ip_forced s host i :
  extract_ip s = Ok (host, Some i) →
  Py.contains "{" host = false
  ∧ Py.contains "{" i = false ∧ Py.contains "}" i = false.
Proof.
  unfold extract_ip. destruct (_ && _); [|done].
  unfold Py.index.
  destruct (Py.split "{" s !! 1%nat) as [raw_ip|] eqn:E1; [|done].
  destruct (Py.split "{" s !! 0%nat) as [h|] eqn:E0; [|done].
  cbn [mbind result_bind]. intros [= <- <-]. split_and!.
  - by eapply lookup_split_no_sep.
  - apply remove_other. by eapply lookup_split_no_sep.
  - apply remove_no_char.
Qed.

Lemma _parse_ipv6_address server_str addr p :
  _parse_ipv6_server_string has_ipv6 server_str = Ok (addr, p) →
  Py.contains "[" addr = false ∧ Py.contains "]" addr = false
  ∧ ∀ c, Py.contains c server_str = false → Py.contains c addr = false.
Proof.
  unfold _parse_ipv6_server_string, Py.index.
  destruct (negb has_ipv6); [done|].
  destruct (Py.split "]" server_str !! 0%nat) as [hd|] eqn:E0; [|done].
  cbn [mbind result_bind].
  destruct (Py.split "[" hd !! 1%nat) as [a|] eqn:Ea; [|done].
  cbn [mbind result_bind].
  destruct (Py.split "]" server_str !! 1%nat) as [tl|] eqn:E1; [|done].
  cbn [mbind result_bind].
  assert (Py.contains "[" a = false ∧ Py.contains "]" a = false
    ∧ ∀ c, Py.contains c server_str = false → Py.contains c a = false)
    as Ha.
  { split_and!.
    - by eapply lookup_split_no_sep.
    - eapply lookup_split_no_char; [|exact Ea]. by eapply lookup_split_no_sep.
    - intros c Hc. eapply lookup_split_no_char; [|exact Ea].
      by eapply lookup_split_no_char. }
  destruct (Py.contains ":" tl).
  - destruct (Py.split ":" tl !! 1%nat) as [seg|]; [|done].
    cbn [mbind result_bind]. destruct (Py.int seg); [|done].
    by intros [= <- <-].
  - by intros [= <- <-].
Qed.

Lemma _parse_ipv4_host server_str h p :
  _parse_ipv4_server_string server_str = Ok (h, p) →
  Py.contains ":" h = false
  ∧ (p = None ↔ Py.contains ":" server_str = false)
  ∧ ∀ c, Py.contains c server_str = false → Py.contains c h = false.
Proof.
  unfold _parse_ipv4_server_string, Py.index.
  destruct (Py.contains ":" server_str) eqn:Hc.
  - destruct (Py.split ":" server_str !! 0%nat) as [hd|] eqn:E0; [|done].
    cbn [mbind result_bind].
    destruct (Py.split ":" server_str !! 1%nat) as [seg|]; [|done].
    cbn [mbind result_bind]. destruct (Py.int seg); [|done].
    intros [= <- <-]. split_and!.
    + by eapply lookup_split_no_sep.
    + done.
    + intros c H. by eapply lookup_split_no_char.
  - by intros [= <- <-].
Qed.

(** X5. What a successful parse returns: a host taken from a plain
    working host string holds no ':', and the port is [None] exactly when
    that string holds no ':'; a host taken from brackets holds neither
    '[' nor ']'; a forced IP holds no brace, and no bracket when one was
    written. *)
Theorem parse_server_string_result_shape s host ip h ip' p :
  extract_ip s = Ok (host, ip) →
  parse_server_string has_ipv6 s = Ok (h, ip', p) →
  (if Py.contains "[" host
   then Py.contains "[" h = false ∧ Py.contains "]" h = false
   else Py.contains ":" h = false
        ∧ (p = None ↔ Py.contains ":" host = false))
  ∧ (∀ i', ip' = Some i' →
       Py.contains "{" i' = false ∧ Py.contains "}" i' = false
       ∧ (Py.contains "[" host = false →
          Py.contains "[" i' = false)).
Proof.
  intros E. rewrite (parse_server_string_unfold _ s host ip E).
  destruct (Py.contains "[" host) eqn:Hk.
  - destruct (_parse_ipv6_server_string has_ipv6 host) as [[a q]|] eqn:E6;
      [|done]. cbn [mbind result_bind]. intros [= <- <- <-].
    destruct (_parse_ipv6_address _ _ _ E6) as (? & ? & _).
    split; [done|]. intros i' ->.
    destruct (extract_ip_forced _ _ _ E) as (_ & ? & ?). done.
  - intros H.
    assert (∃ ip0, _parse_ipv4_server_string host = Ok (h, p)
      ∧ ip' = ip0
      ∧ ∀ i', ip0 = Some i' →
          Py.contains "{" i' = false ∧ Py.contains "}" i' = false
          ∧ Py.contains "[" i' = false) as (ip0 & H4 & -> & Hip).
    { destruct ip as [i|].
      - destruct (extract_ip_forced _ _ _ E) as (_ & Hi1 & Hi2).
        destruct (Py.contains "[" i) eqn:Hki.
        + destruct (_parse_ipv6_server_string has_ipv6 i) as [[a q]|] eqn:E6;
            [|done]. cbn [mbind result_bind] in H.
          destruct (_parse_ipv4_server_string host) as [[h' p']|]; [|done].
          cbn [mbind result_bind] in H. injection H as <- <- <-.
          destruct (_parse_ipv6_address _ _ _ E6) as (? & ? & Hc).
          exists (Some a). split_and!; [done..|]. intros i' [= <-].
          split_and!; [by apply Hc|by apply Hc|done].
        + cbn [mbind result_bind] in H.
          destruct (_parse_ipv4_server_string host) as [[h' p']|]; [|done].
          cbn [mbind result_bind] in H. injection H as <- <- <-.
          exists (Some i). split_and!; [done..|]. by intros i' [= <-].
      - cbn [mbind result_bind] in H.
        destruct (_parse_ipv4_server_string host) as [[h' p']|]; [|done].
        cbn [mbind result_bind] in H. injection H as <- <- <-.
        exists None. split_and!; done. }
    destruct (_parse_ipv4_host _ _ _ H4) as (? & ? & _).
    split; [done|]. intros i' Hi'. destruct (Hip i' Hi') as (? & ? & ?). done.
Qed.

(** X6. After a plain host and its port, a further ':' and whatever
    follows it are ignored. *)
Theorem parse_server_string_extra_segments host (n : Z) rest :
  Py.contains ":" host = false → Py.contains "[" host = false →
  Py.contains "{" host = false →
  Py.contains "{" rest = false → Py.contains "[" rest = false →
  parse_server_string has_ipv6
    (host +:+ String ":" (Py.str n +:+ String ":" rest))
  = Ok (host, None, Some n).
Proof.
  intros Hc Hk Hb Hrb Hrk.
  set (t := host +:+ String ":" (Py.str n +:+ String ":" rest)).
  assert (∀ c, c = "{"%char ∨ c = "["%char → Py.contains c host = false →
               Py.contains c rest = false → Py.contains c t = false) as Ht.
  { intros c Hcc H1 H2. unfold t. rewrite contains_app, H1.
    cbn [Py.contains orb]. rewrite contains_app.
    rewrite contains_colon_str by (destruct Hcc; auto).
    cbn [Py.contains orb]. rewrite H2.
    by destruct Hcc as [-> | ->]. }
  rewrite (parse_server_string_unfold _ t t None)
    by (apply extract_ip_plain, Ht; auto).
  rewrite (Ht "["%char) by auto. cbn [mbind result_bind].
  rewrite (_parse_ipv4_port t host (Py.str n) (Py.split ":" rest)).
  - by rewrite int_str.
  - unfold t. rewrite split_app by done. f_equal.
    apply split_app, contains_colon_str; auto.
Qed.

End Grammar.

(** ** What the targets file gives *)

Section TargetsRead.

Variable open_file : string → option string.

Lemma lstrip_head sp s :
  match Py.lstrip sp s with
  | EmptyString => True
  | String a _ => sp a = false
  end.
Proof.
  induction s as [|a s IH]; [done|]. cbn [Py.lstrip].
  by destruct (sp a) eqn:E.
Qed.

Lemma lstrip_fixed sp a s : sp a = false → Py.lstrip sp (String a s) = String a s.
Proof. intros H. cbn [Py.lstrip]. by rewrite H. Qed.

Lemma rstrip_idemp sp s : Py.rstrip sp (Py.rstrip sp s) = Py.rstrip sp s.
Proof.
  induction s as [|a s IH]; [done|]. cbn [Py.rstrip].
  destruct (Py.rstrip sp s) as [|b r] eqn:E.
  - destruct (sp a) eqn:Ea; [done|]. cbn [Py.rstrip]. by rewrite Ea.
  - change (Py.rstrip sp (String a (String b r)))
      with (match Py.rstrip sp (String b r) with
            | EmptyString => if sp a then EmptyString else String a EmptyString
            | String b' r' => String a (String b' r')
            end).
    by rewrite IH.
Qed.

Lemma strip_idemp sp s : Py.strip sp (Py.strip sp s) = Py.strip sp s.
Proof.
  unfold Py.strip. pose proof (lstrip_head sp s) as H.
  destruct (Py.lstrip sp s) as [|a r]; [done|].
  rewrite (rstrip_keeps_head sp a r H), (lstrip_fixed sp a _ H).
  rewrite <- (rstrip_keeps_head sp a r H). apply rstrip_idemp.
Qed.

Lemma contains_lstrip c sp s :
  Py.contains c s = false → Py.contains c (Py.lstrip sp s) = false.
Proof.
  induction s as [|a s IH]; [done|]. cbn [Py.lstrip Py.contains].
  destruct (Ascii.eqb a c) eqn:E; [done|]. intros H.
  destruct (sp a); [by apply IH|]. cbn [Py.contains]. by rewrite E.
Qed.

Lemma contains_rstrip c sp s :
  Py.contains c s = false → Py.contains c (Py.rstrip sp s) = false.
Proof.
  induction s as [|a s IH]; [done|]. cbn [Py.rstrip Py.contains].
  destruct (Ascii.eqb a c) eqn:E; [done|]. intros H. specialize (IH H).
  destruct (Py.rstrip sp s) as [|b r].
  - destruct (sp a); [done|]. cbn [Py.contains]. by rewrite E.
  - cbn [Py.contains] in *. by rewrite E.
Qed.

Lemma rstrip_blank_end sp body c :
  sp c = true →
  Py.rstrip sp (body +:+ String c EmptyString) = Py.rstrip sp body.
Proof.
  intros Hc. induction body as [|a body IH].
  - change (EmptyString +:+ String c EmptyString) with (String c EmptyString).
    cbn [Py.rstrip]. by rewrite Hc.
  - change (String a body +:+ String c EmptyString)
      with (String a (body +:+ String c EmptyString)).
    cbn [Py.rstrip]. by rewrite IH.
Qed.

Lemma lstrip_blank_end sp body c :
  sp c = true →
  Py.rstrip sp (Py.lstrip sp (body +:+ String c EmptyString))
  = Py.rstrip sp (Py.lstrip sp body).
Proof.
  intros Hc. induction body as [|a body IH].
  - change (EmptyString +:+ String c EmptyString) with (String c EmptyString).
    cbn [Py.lstrip]. by rewrite Hc.
  - change (String a body +:+ String c EmptyString)
      with (String a (body +:+ String c EmptyString)).
    cbn [Py.lstrip]. destruct (sp a); [exact IH|].
    change (String a (body +:+ String c EmptyString))
      with (String a body +:+ String c EmptyString).
    by apply rstrip_blank_end.
Qed.

Lemma strip_line line :
  (∃ body, Py.contains Py.newline body = false
           ∧ (line = body +:+ String Py.newline EmptyString
              ∨ (line = body ∧ body ≠ EmptyString))) →
  Py.contains Py.newline (Py.strip Py.isspace_bytes line) = false.
Proof.
  intros (body & Hb & [-> | [-> _]]); unfold Py.strip.
  - rewrite lstrip_blank_end by reflexivity.
    by apply contains_rstrip, contains_lstrip.
  - by apply contains_rstrip, contains_lstrip.
Qed.

(** X7. Every target read from the targets file is a non-empty text
    with no blank at either end (stripping it again changes nothing)
    and holds no line end: a target never spans two lines. *)
Theorem handle_targets_in_file_targets args path content targets :
  targets_in args = Some path → Py.truthy (Some path) = true →
  open_file path = Some content →
  handle_targets_in open_file args [] = Ok targets →
  Forall (λ target,
            target ≠ EmptyString
            ∧ Py.strip Py.isspace_bytes target = target
            ∧ Py.contains Py.newline target = false) targets.
Proof.
  intros Hin Ht Hf.
  rewrite (handle_targets_in_file open_file args path content Hin Ht Hf).
  rewrite read_targets_filter. cbn [app].
  intros H.
  assert (targets = map (Py.strip Py.isspace_bytes)
    (List.filter
       (λ target, Py.truthy (Some (Py.strip Py.isspace_bytes target))
                  && negb (Py.startswith "#" target))
       (Py.readlines content))) as ->.
  { destruct (map _ _); [discriminate|]. by injection H as <-. }
  clear H. apply Forall_forall. intros target Hin'.
  apply list_elem_of_In, in_map_iff in Hin' as (line & <- & Hline).
  apply filter_In in Hline as [Hline Hkeep].
  apply andb_true_iff in Hkeep as [Hkeep _]. split_and!.
  - intros E. by rewrite E in Hkeep.
  - apply strip_idemp.
  - apply strip_line.
    pose proof (readlines_lines content) as HF.
    rewrite Forall_forall in HF. apply HF. by apply list_elem_of_In.
Qed.

End TargetsRead.

(** ** The registered options *)

Section Registration.

Lemma add_option_grows opt_str parser parser' :
  add_option opt_str parser = Ok parser' → parser' = parser ++ [opt_str].
Proof.
  unfold add_option. destruct (has_option _ _); [discriminate|].
  intros H. by injection H as <-.
Qed.

Lemma add_options_grows opts : ∀ parser parser',
  add_options opts parser = Ok parser' → parser' = parser ++ opts.
Proof.
  induction opts as [|o opts IH]; intros parser parser'; cbn [add_options].
  - intros H. injection H as <-. by rewrite app_nil_r.
  - destruct (add_option o parser) as [p|] eqn:E; [|discriminate].
    cbn [mbind result_bind]. intros H%IH.
    rewrite (add_option_grows _ _ _ E) in H. by rewrite <- app_assoc in H.
Qed.

Lemma _add_plugin_options_grows available_plugins : ∀ parser parser',
  _add_plugin_options available_plugins parser = Ok parser' →
  parser' = parser ++ concat available_plugins.
Proof.
  induction available_plugins as [|plugin rest IH]; intros parser parser';
    cbn [_add_plugin_options].
  - intros H. injection H as <-. by rewrite app_nil_r.
  - destruct (add_options plugin parser) as [p|] eqn:E; [|discriminate].
    cbn [mbind result_bind]. intros H%IH.
    rewrite (add_options_grows _ _ _ E) in H. cbn [concat].
    by rewrite <- app_assoc in H.
Qed.

(** X8. A parser that [__init__] has built knows every default option,
    every option string of every plugin, and --regular. *)
Theorem __init___registered available_plugins self :
  __init__ available_plugins = Ok self →
  (∀ opt_str,
     opt_str ∈ ["--cert"; "--key"; "--keyform"; "--pass"; "--xml_out";
                "--json_out"; "--targets_in"; "--quiet"; "--timeout";
                "--nb_retries"; "--https_tunnel"; "--starttls"; "--xmpp_to";
                "--sni"] →
     has_option (_parser self) opt_str = true)
  ∧ has_option (_parser self) "--regular" = true
  ∧ ∀ plugin opt_str, plugin ∈ available_plugins → opt_str ∈ plugin →
      has_option (_parser self) opt_str = true.
Proof.
  unfold __init__.
  destruct (_add_default_options _) as [p1|] eqn:E1; [|discriminate].
  cbn [mbind result_bind].
  destruct (_add_plugin_options _ p1) as [p2|] eqn:E2; [|discriminate].
  cbn [mbind result_bind].
  destruct (add_option "--regular" p2) as [p3|] eqn:E3; [|discriminate].
  cbn [mbind result_bind]. intros H. injection H as <-. cbn [_parser].
  apply add_options_grows in E1. apply _add_plugin_options_grows in E2.
  apply add_option_grows in E3. subst p1 p2 p3.
  split_and!.
  - intros opt_str Ho. apply bool_decide_eq_true.
    apply elem_of_app. left. apply elem_of_app. left.
    apply elem_of_app. by right.
  - apply bool_decide_eq_true. apply elem_of_app. right. by constructor.
  - intros plugin opt_str Hp Ho. apply bool_decide_eq_true.
    apply elem_of_app. left. apply elem_of_app. right.
    apply list_elem_of_In, in_concat. exists plugin.
    split; by apply list_elem_of_In.
Qed.

End Registration.

(** ** More on the option checks *)

Section MoreOptionChecks.

Context (has_ipv6 : bool) (open_file : string → option string)
  (decode_utf8 : string → result string) (Creds Tunnel : Type)
  (new_creds : option string → option string → OpenSslFileTypeEnum →
               string → result Creds)
  (from_url : string → result Tunnel) (World : Type)
  (new_info : string → option Z → option string → TlsWrappedProtocolEnum →
              option string → option string → option Creds → option Tunnel →
              World → result (ServerConnectivityInfo Creds Tunnel) * World).

Local Abbreviation Info := (ServerConnectivityInfo Creds Tunnel).
Local Abbreviation run :=
  (parse_command_line has_ipv6 open_file decode_utf8 Creds Tunnel new_creds
     from_url World new_info).
Local Abbreviation options :=
  (resolve_options open_file Creds Tunnel new_creds from_url).
Local Abbreviation loop :=
  (create_server_infos has_ipv6 decode_utf8 Creds Tunnel World new_info).
Local Abbreviation attempt :=
  (create_server_info has_ipv6 Creds Tunnel World new_info).

Lemma setattr_all_plain (cmds : list string) v args :
  let args' := fold_left (λ a c, setattr c v a) cmds args in
  keyform args' = keyform args ∧ keypass args' = keypass args
  ∧ nb_retries args' = nb_retries args
  ∧ https_tunnel args' = https_tunnel args
  ∧ targets_in args' = targets_in args
  ∧ sni args' = sni args ∧ xmpp_to args' = xmpp_to args
  ∧ timeout args' = timeout args.
Proof.
  revert args. induction cmds as [|c cmds IH]; intros args; [done|].
  simpl. apply (IH (setattr c v args)).
Qed.

Lemma handle_regular_plain self args :
  let args' := handle_regular self args in
  keyform args' = keyform args ∧ keypass args' = keypass args
  ∧ nb_retries args' = nb_retries args
  ∧ https_tunnel args' = https_tunnel args
  ∧ targets_in args' = targets_in args
  ∧ sni args' = sni args ∧ xmpp_to args' = xmpp_to args
  ∧ timeout args' = timeout args.
Proof.
  unfold handle_regular. destruct (has_option _ _); [|done].
  destruct (is_true _); [|done].
  apply (setattr_all_plain REGULAR_CMD (Py.VBool true) (set_regular false args)).
Qed.

Lemma check_output_options_same args args' :
  xml_file args' = xml_file args → json_file args' = json_file args →
  quiet args' = quiet args →
  check_output_options args' = check_output_options args.
Proof. unfold check_output_options. by intros -> -> ->. Qed.

(** X9. The three refusals about the standard output, in the order of
    the checks: --xml_out - with --quiet, then --json_out - with --quiet,
    then --xml_out - with --json_out -; once the target list is there,
    the run stops on the first that applies and contacts no server. *)
Theorem parse_command_line_output_conflicts self args positional w targets :
  handle_targets_in open_file args positional = Ok targets →
  (is_stdout (xml_file args) = true → is_true (quiet args) = true →
     run self (args, positional) w =
       (Raise (CommandLineParsingError "Cannot use --quiet with --xml_out -."),
        w))
  ∧ (is_stdout (xml_file args) = false →
     is_stdout (json_file args) = true → is_true (quiet args) = true →
     run self (args, positional) w =
       (Raise (CommandLineParsingError "Cannot use --quiet with --json_out -."),
        w))
  ∧ (is_stdout (xml_file args) = true → is_stdout (json_file args) = true →
     is_true (quiet args) = false →
     run self (args, positional) w =
       (Raise (CommandLineParsingError
          "Cannot use --xml_out - with --json_out -."), w)).
Proof.
  intros Ht.
  destruct (handle_regular_fields self args) as (_ & _ & _ & Hx & Hj & Hq).
  assert (∀ e, check_output_options args = Raise e →
               run self (args, positional) w = (Raise e, w)) as Hrun.
  { intros e He. unfold parse_command_line, resolve_options.
    rewrite Ht. cbn [mbind result_bind].
    by rewrite (check_output_options_same args _ Hx Hj Hq), He. }
  split_and!.
  - intros H1 H2. apply Hrun. unfold check_output_options. by rewrite H1, H2.
  - intros H1 H2 H3. apply Hrun. unfold check_output_options.
    by rewrite H1, H2, H3.
  - intros H1 H2 H3. apply Hrun. unfold check_output_options.
    by rewrite H1, H2, H3.
Qed.

(** What a run has checked when the options are accepted. *)
Lemma resolve_options_inv self args positional args' targets creds tun proto :
  options self args positional = Ok (args', targets, creds, tun, proto) →
  args' = handle_regular self args
  ∧ handle_targets_in open_file args positional = Ok targets
  ∧ check_output_options args' = Ok ()
  ∧ check_client_cert Creds new_creds args' = Ok creds
  ∧ check_https_tunnel Tunnel from_url args' = Ok tun
  ∧ check_starttls args' = Ok proto
  ∧ check_nb_retries args' = Ok ().
Proof.
  unfold resolve_options.
  destruct (handle_targets_in _ _ _) as [ts|] eqn:E1; [|done].
  cbn [mbind result_bind].
  destruct (check_output_options _) as [[]|] eqn:E2; [|done].
  cbn [mbind result_bind].
  destruct (check_client_cert _ _ _) as [c|] eqn:E3; [|done].
  cbn [mbind result_bind].
  destruct (check_https_tunnel _ _ _) as [t|] eqn:E4; [|done].
  cbn [mbind result_bind].
  destruct (check_starttls _) as [p|] eqn:E5; [|done].
  cbn [mbind result_bind].
  destruct (check_nb_retries _) as [[]|] eqn:E6; [|done].
  cbn [mbind result_bind].
  intros H. injection H as <- <- <- <- <-. done.
Qed.

Lemma parse_command_line_options self args positional w good bad args' w' :
  run self (args, positional) w = (Ok (good, bad, args'), w') →
  ∃ targets creds tun proto,
    options self args positional = Ok (args', targets, creds, tun, proto).
Proof.
  unfold parse_command_line.
  destruct (options self args positional)
    as [[[[[a ts] creds] tun] proto]|]; [|done].
  destruct (create_server_infos _ _ _ _ _ _ _ _ _ _ _ _ _ _)
    as [[[g b]|] w1]; [|done].
  destruct (handle_http_get _ _) as [g'|]; [|done].
  intros H. injection H as _ _ <- _. by exists ts, creds, tun, proto.
Qed.

(** X10. The options that a run hands back have passed every check: at
    least one connection attempt, a certificate and a key together or
    neither, a key format of DER or PEM when they are there, no two
    users of the standard output, and a --starttls value of the list. *)
Theorem parse_command_line_accepted_options self args positional w good bad args' w' :
  run self (args, positional) w = (Ok (good, bad, args'), w') →
  1 ≤ nb_retries args'
  ∧ Py.truthy (cert args') = Py.truthy (key args')
  ∧ (Py.truthy (cert args') = true →
     keyform args' = "DER" ∨ keyform args' = "PEM")
  ∧ (is_true (quiet args') = true →
     is_stdout (xml_file args') = false ∧ is_stdout (json_file args') = false)
  ∧ (is_stdout (xml_file args') = true → is_stdout (json_file args') = false)
  ∧ (∀ name, starttls args' = Some name → name ≠ EmptyString →
       name ∈ START_TLS_PROTOCOLS).
Proof.
  intros (targets & creds & tun & proto & Hopt)%parse_command_line_options.
  destruct (resolve_options_inv _ _ _ _ _ _ _ _ Hopt)
    as (_ & _ & Ho & Hc & _ & Hs & Hn).
  split_and!.
  - revert Hn. unfold check_nb_retries.
    destruct (nb_retries args' <? 1) eqn:E; [done|]. intros _.
    apply Z.ltb_ge in E. lia.
  - revert Hc. unfold check_client_cert.
    by destruct (Py.truthy (cert args')), (Py.truthy (key args')).
  - intros Hcert. revert Hc. unfold check_client_cert. rewrite Hcert.
    destruct (xorb _ _); [done|].
    destruct (bool_decide (keyform args' = "DER")) eqn:E1;
      [apply bool_decide_eq_true in E1; auto|].
    destruct (bool_decide (keyform args' = "PEM")) eqn:E2;
      [apply bool_decide_eq_true in E2; auto|]. done.
  - intros Hq. revert Ho. unfold check_output_options. rewrite Hq.
    by destruct (is_stdout (xml_file args')), (is_stdout (json_file args')).
  - intros Hx. revert Ho. unfold check_output_options. rewrite Hx.
    by destruct (is_true (quiet args')), (is_stdout (json_file args')).
  - intros name Hname Hne. revert Hs. unfold check_starttls. rewrite Hname.
    change (default EmptyString (Some name)) with name.
    destruct name as [|a name]; [done|]. cbn [Py.truthy].
    destruct (bool_decide (String a name ∈ START_TLS_PROTOCOLS)) eqn:E;
      [by apply bool_decide_eq_true in E|by cbn [negb]].
Qed.

Lemma check_client_cert_same args args' :
  cert args' = cert args → key args' = key args →
  keyform args' = keyform args → keypass args' = keypass args →
  check_client_cert Creds new_creds args' = check_client_cert Creds new_creds args.
Proof. unfold check_client_cert. by intros -> -> -> ->. Qed.

Lemma check_https_tunnel_same args args' :
  https_tunnel args' = https_tunnel args →
  check_https_tunnel Tunnel from_url args' = check_https_tunnel Tunnel from_url args.
Proof. unfold check_https_tunnel. by intros ->. Qed.

Lemma check_starttls_same args args' :
  starttls args' = starttls args → check_starttls args' = check_starttls args.
Proof. unfold check_starttls. by intros ->. Qed.

Lemma check_nb_retries_same args args' :
  nb_retries args' = nb_retries args →
  check_nb_retries args' = check_nb_retries args.
Proof. unfold check_nb_retries. by intros ->. Qed.

(** The checks see the options as they were before the --regular
    expansion. *)
Lemma resolve_options_checks self args positional :
  options self args positional =
    (targets ← handle_targets_in open_file args positional;
     _ ← check_output_options args;
     creds ← check_client_cert Creds new_creds args;
     tun ← check_https_tunnel Tunnel from_url args;
     proto ← check_starttls args;
     _ ← check_nb_retries args;
     Ok (handle_regular self args, targets, creds, tun, proto)).
Proof.
  unfold resolve_options.
  destruct (handle_regular_fields self args) as (Hc & Hk & Hs & Hx & Hj & Hq).
  destruct (handle_regular_plain self args) as (Hf & Hp & Hn & Ht & _).
  rewrite (check_output_options_same args _ Hx Hj Hq).
  rewrite (check_client_cert_same args _ Hc Hk Hf Hp).
  rewrite (check_https_tunnel_same args _ Ht).
  rewrite (check_starttls_same args _ Hs).
  by rewrite (check_nb_retries_same args _ Hn).
Qed.

(** X11. With fewer than one connection attempt asked for, the run stops
    before any server is contacted; it stops with the error of
    --nb_retries when the checks that come first accept the options. *)
Theorem parse_command_line_nb_retries self args positional w :
  nb_retries args < 1 →
  (∃ e, run self (args, positional) w = (Raise e, w))
  ∧ (∀ targets creds tun proto,
       handle_targets_in open_file args positional = Ok targets →
       check_output_options args = Ok () →
       check_client_cert Creds new_creds args = Ok creds →
       check_https_tunnel Tunnel from_url args = Ok tun →
       check_starttls args = Ok proto →
       run self (args, positional) w =
         (Raise (CommandLineParsingError
            "Cannot have a number smaller than 1 for --nb_retries."), w)).
Proof.
  intros Hn.
  assert (check_nb_retries args = Raise (CommandLineParsingError
            "Cannot have a number smaller than 1 for --nb_retries.")) as Hr.
  { unfold check_nb_retries. by rewrite (proj2 (Z.ltb_lt _ _) Hn). }
  unfold parse_command_line. rewrite resolve_options_checks, Hr. split.
  - destruct (handle_targets_in _ _ _); cbn [mbind result_bind]; [|eauto].
    destruct (check_output_options _); cbn [mbind result_bind]; [|eauto].
    destruct (check_client_cert _ _ _); cbn [mbind result_bind]; [|eauto].
    destruct (check_https_tunnel _ _ _); cbn [mbind result_bind]; [|eauto].
    destruct (check_starttls _); cbn [mbind result_bind]; eauto.
  - intros targets creds tun proto -> -> -> -> ->. done.
Qed.

(** X12. The --starttls values: a value outside [START_TLS_PROTOCOLS]
    is refused with the usage text; every value of the list but 'auto'
    is a key of [STARTTLS_PROTOCOL_DICT] and selects its StartTLS
    protocol; 'auto' and no value leave plain TLS. *)
Theorem check_starttls_values args :
  (∀ name, starttls args = Some name → name ≠ EmptyString →
     name ∉ START_TLS_PROTOCOLS →
     check_starttls args = Raise (CommandLineParsingError START_TLS_USAGE))
  ∧ (∀ name, starttls args = Some name → name ∈ START_TLS_PROTOCOLS →
     name ≠ "auto" →
     ∃ protocol, STARTTLS_PROTOCOL_DICT !! inl name = Some protocol
                 ∧ check_starttls args = Ok protocol
                 ∧ protocol ≠ PLAIN_TLS ∧ protocol ≠ HTTPS)
  ∧ (starttls args = Some "auto" ∨ Py.truthy (starttls args) = false →
     check_starttls args = Ok PLAIN_TLS).
Proof.
  split_and!.
  - intros name Hs Hne Hnot. unfold check_starttls. rewrite Hs.
    change (default EmptyString (Some name)) with name.
    destruct name as [|a name]; [done|]. cbn [Py.truthy].
    by rewrite bool_decide_eq_false_2.
  - intros name Hs Hin Hauto. unfold check_starttls. rewrite Hs.
    change (default EmptyString (Some name)) with name.
    rewrite bool_decide_eq_true_2 by done. cbn [negb].
    unfold START_TLS_PROTOCOLS in Hin.
    repeat (apply elem_of_cons in Hin as [->|Hin];
            [first [ exfalso; by apply Hauto
                   | cbn [Py.truthy]; eexists; split; [vm_compute; reflexivity|];
                     split; [vm_compute; reflexivity|done] ]|]).
    by apply elem_of_nil in Hin.
  - intros [Hs|Hs]; unfold check_starttls; rewrite Hs; [|done].
    vm_compute. reflexivity.
Qed.

(** X13. The settings shared by every server come from the options:
    credentials exist exactly when --cert is given, and are then what
    the credentials class builds from --cert, --key, the key type of
    --keyform (ASN1 for DER, PEM for PEM) and --pass; a tunnel exists
    exactly when --https_tunnel is given, and is what its URL parses to. *)
Theorem resolve_options_shared_settings self args positional args' targets creds tun proto :
  options self args positional = Ok (args', targets, creds, tun, proto) →
  match creds with
  | Some c =>
      Py.truthy (cert args) = true
      ∧ ∃ key_type,
          new_creds (cert args) (key args) key_type (keypass args) = Ok c
          ∧ (keyform args = "DER" ∧ key_type = ASN1
             ∨ keyform args = "PEM" ∧ key_type = PEM)
  | None => Py.truthy (cert args) = false
  end
  ∧ match tun with
    | Some t =>
        ∃ url, https_tunnel args = Some url ∧ url ≠ EmptyString
               ∧ from_url url = Ok t
    | None => Py.truthy (https_tunnel args) = false
    end.
Proof.
  rewrite resolve_options_checks.
  destruct (handle_targets_in _ _ _); cbn [mbind result_bind]; [|done].
  destruct (check_output_options _); cbn [mbind result_bind]; [|done].
  destruct (check_client_cert _ _ _) as [c0|] eqn:Ec;
    cbn [mbind result_bind]; [|done].
  destruct (check_https_tunnel _ _ _) as [t0|] eqn:Et;
    cbn [mbind result_bind]; [|done].
  destruct (check_starttls _); cbn [mbind result_bind]; [|done].
  destruct (check_nb_retries _); cbn [mbind result_bind]; [|done].
  intros H. injection H as _ _ <- <- _. split.
  - revert Ec. unfold check_client_cert. destruct (xorb _ _); [done|].
    destruct (Py.truthy (cert args)); [|by intros [= <-]].
    destruct (bool_decide (keyform args = "DER")) eqn:E1.
    + apply bool_decide_eq_true in E1. cbn [mbind result_bind].
      destruct (new_creds _ _ ASN1 _) as [c|e] eqn:En;
        [|by destruct (is_ValueError e)].
      intros [= <-]. split; [done|]. exists ASN1. auto.
    + destruct (bool_decide (keyform args = "PEM")) eqn:E2; [|done].
      apply bool_decide_eq_true in E2. cbn [mbind result_bind].
      destruct (new_creds _ _ PEM _) as [c|e] eqn:En;
        [|by destruct (is_ValueError e)].
      intros [= <-]. split; [done|]. exists PEM. auto.
  - revert Et. unfold check_https_tunnel.
    destruct (https_tunnel args) as [[|ch url]|] eqn:Eu;
      cbn [Py.truthy]; [by intros [= <-]| |by intros [= <-]].
    change (default EmptyString (Some (String ch url))) with (String ch url).
    destruct (from_url _) as [t|e] eqn:Ef; [|by destruct (is_ValueError e)].
    intros [= <-]. by exists (String ch url).
Qed.






End MoreOptionChecks.

(** ** More on the loop and the adjustments *)

Section MoreBatch.

Context (has_ipv6 : bool) (open_file : string → option string)
  (decode_utf8 : string → result string) (Creds Tunnel : Type)
  (new_creds : option string → option string → OpenSslFileTypeEnum →
               string → result Creds)
  (from_url : string → result Tunnel) (World : Type)
  (new_info : string → option Z → option string → TlsWrappedProtocolEnum →
              option string → option string → option Creds → option Tunnel →
              World → result (ServerConnectivityInfo Creds Tunnel) * World).

Local Abbreviation Info := (ServerConnectivityInfo Creds Tunnel).
Local Abbreviation run :=
  (parse_command_line has_ipv6 open_file decode_utf8 Creds Tunnel new_creds
     from_url World new_info).
Local Abbreviation options :=
  (resolve_options open_file Creds Tunnel new_creds from_url).
Local Abbreviation loop :=
  (create_server_infos has_ipv6 decode_utf8 Creds Tunnel World new_info).
Local Abbreviation attempt :=
  (create_server_info has_ipv6 Creds Tunnel World new_info).
Local Abbreviation parsed := (λ info : Info,
  ∃ h ip p, parse_server_string has_ipv6 (server_string info) = Ok (h, ip, p)).
Local Abbreviation connectivity := (λ f : FailedServerScan,
  ∃ m, failed_reason f = ServerConnectivityError m).

Implicit Types (good resolved : list Info) (bad : list FailedServerScan).

Lemma parse_command_line_options_fields self args positional args' targets creds tun proto :
  options self args positional = Ok (args', targets, creds, tun, proto) →
  args' = handle_regular self args.
Proof.
  unfold resolve_options.
  destruct (handle_targets_in _ _ _); cbn [mbind result_bind]; [|discriminate].
  destruct (check_output_options _); cbn [mbind result_bind]; [|discriminate].
  destruct (check_client_cert _ _ _); cbn [mbind result_bind]; [|discriminate].
  destruct (check_https_tunnel _ _ _); cbn [mbind result_bind]; [|discriminate].
  destruct (check_starttls _); cbn [mbind result_bind]; [|discriminate].
  destruct (check_nb_retries _); cbn [mbind result_bind]; [|discriminate].
  intros H. by injection H as <- _ _ _ _.
Qed.

Lemma create_server_info_parsed args proto creds tun s w (info : Info) w' :
  attempt args proto creds tun s w = (Ok info, w') → parsed info.
Proof.
  unfold create_server_info.
  destruct (parse_server_string has_ipv6 s) as [[[h ip] p]|] eqn:E;
    [|discriminate].
  destruct (new_info _ _ _ _ _ _ _ _ _) as [[i|] w1]; [|discriminate].
  intros H. injection H as <- _. cbn [server_string set_server_string].
  by exists h, ip, p.
Qed.

Lemma create_server_infos_kinds args proto creds tun targets :
  ∀ good bad w good' bad' w',
    loop args proto creds tun targets good bad w = (Ok (good', bad'), w') →
    Forall parsed good → Forall connectivity bad →
    Forall parsed good' ∧ Forall connectivity bad'.
Proof.
  induction targets as [|t targets IH]; intros good bad w good' bad' w'.
  - cbn [create_server_infos]. intros H. injection H as <- <- _. done.
  - cbn [create_server_infos].
    destruct (decode_utf8 t) as [s|]; [|discriminate].
    destruct (attempt args proto creds tun s w) as [[info|e] w1] eqn:Ea.
    + intros H Hg Hb. apply (IH _ _ _ _ _ _ H); [|done].
      apply Forall_app. split; [done|]. constructor; [|constructor].
      by eapply create_server_info_parsed.
    + destruct e; try (destruct (is_ValueError _); discriminate).
      intros H Hg Hb. apply (IH _ _ _ _ _ _ H); [done|].
      apply Forall_app. split; [done|]. constructor; [|constructor].
      by eexists.
Qed.

(** X15. In what a run returns, every failure carries a connectivity
    error, and every descriptor keeps a server string that
    [parse_server_string] accepts. *)
Theorem parse_command_line_kinds self args positional w good bad args' w' :
  run self (args, positional) w = (Ok (good, bad, args'), w') →
  Forall (λ f, ∃ m, failed_reason f = ServerConnectivityError m) bad
  ∧ Forall (λ info : Info,
              ∃ h ip p, parse_server_string has_ipv6 (server_string info)
                        = Ok (h, ip, p)) good.
Proof.
  intros (targets & creds & tun & proto & resolved & v & _ & _ & Hl & _
          & Hadj)%parse_command_line_inv.
  destruct (create_server_infos_kinds _ _ _ _ _ _ _ _ _ _ _ Hl)
    as [Hg Hb]; [constructor..|].
  split; [exact Hb|].
  apply handle_http_get_strings in Hadj.
  pose proof (handle_starttls_auto_strings Creds Tunnel args' resolved)
    as H0.
  assert (∀ l l' : list Info,
    Forall2 (λ r info : Info, port info = port r
                              ∧ server_string info = server_string r) l l' →
    Forall parsed l → Forall parsed l') as Htr.
  { induction 1 as [|r info l l' [_ Hs] _ IH]; [done|].
    intros [Hr Hl']%Forall_cons. constructor; [|by apply IH].
    by rewrite Hs. }
  eapply Htr; [exact Hadj|]. eapply Htr; [exact H0|exact Hg].
Qed.


Lemma parse_command_line_run self args positional w args' targets creds tun proto :
  options self args positional = Ok (args', targets, creds, tun, proto) →
  run self (args, positional) w =
    match loop args' proto creds tun targets [] [] w with
    | (Raise e, w') => (Raise e, w')
    | (Ok (good, bad), w') =>
        match handle_http_get args' (handle_starttls_auto args' good) with
        | Raise e => (Raise e, w')
        | Ok good => (Ok (good, bad, args'), w')
        end
    end.
Proof. unfold parse_command_line. by intros ->. Qed.


Lemma create_server_infos_fatal args proto creds tun targets t s e :
  t ∈ targets → decode_utf8 t = Ok s →
  parse_server_string has_ipv6 s = Raise e →
  (∀ m, e ≠ ServerConnectivityError m) →
  ∀ good bad w, ∃ e' w',
    loop args proto creds tun targets good bad w = (Raise e', w').
Proof.
  intros Hin Hd Hp Hne.
  induction targets as [|t0 targets IH]; [by apply elem_of_nil in Hin|].
  intros good bad w. cbn [create_server_infos].
  destruct (decode_utf8 t0) as [s0|e0] eqn:Ed0; [|by eexists _, _].
  destruct (attempt args proto creds tun s0 w) as [[info|e1] w1] eqn:Ea.
  - apply elem_of_cons in Hin as [->|Hin]; [|by apply IH].
    rewrite Hd in Ed0. injection Ed0 as <-.
    unfold create_server_info in Ea. rewrite Hp in Ea. discriminate.
  - destruct (decide (t = t0)) as [->|Hneq].
    + rewrite Hd in Ed0. injection Ed0 as <-.
      unfold create_server_info in Ea. rewrite Hp in Ea.
      injection Ea as <- <-.
      destruct e; try (destruct (is_ValueError _); by eexists _, _).
      by destruct (Hne error_msg).
    + apply elem_of_cons in Hin as [?|Hin]; [done|].
      destruct e1; try (destruct (is_ValueError _); by eexists _, _).
      by apply IH.
Qed.

(** X17. One string of the batch on which [parse_server_string] raises
    anything but a connectivity error, such as the [IndexError] of an
    unbalanced bracket, makes the whole run raise: nothing is returned
    for the other strings. *)
Theorem parse_command_line_fatal_target self args positional w args' targets creds tun proto t s e :
  options self args positional = Ok (args', targets, creds, tun, proto) →
  t ∈ targets → decode_utf8 t = Ok s →
  parse_server_string has_ipv6 s = Raise e →
  (∀ m, e ≠ ServerConnectivityError m) →
  ∃ e' w', run self (args, positional) w = (Raise e', w').
Proof.
  intros Hopt Hin Hd Hp Hne.
  rewrite (parse_command_line_run _ _ _ _ _ _ _ _ _ Hopt).
  destruct (create_server_infos_fatal args' proto creds tun targets t s e
              Hin Hd Hp Hne [] [] w) as (e' & w' & ->).
  by exists e', w'.
Qed.

Lemma http_get_443 (l : list Info) info :
  info ∈ map (λ r : Info,
                if port r =? 443 then set_tls_wrapped_protocol HTTPS r else r)
             l →
  port info = 443 → tls_wrapped_protocol info = HTTPS.
Proof.
  intros (r & -> & _)%list_elem_of_fmap.
  destruct (port r =? 443) eqn:E; [done|].
  intros H. apply Z.eqb_neq in E. done.
Qed.

(** X18. With --http_get on, every descriptor on port 443 that a run
    returns has the HTTPS protocol, whatever --starttls says; a run that
    returns has found the [http_get] attribute. *)
Theorem parse_command_line_http_get self args positional w good bad args' w' :
  run self (args, positional) w = (Ok (good, bad, args'), w') →
  ∃ v, getattr "http_get" args' = Ok v
       ∧ (Py.bool_of v = true →
          ∀ info, info ∈ good → port info = 443 →
                  tls_wrapped_protocol info = HTTPS).
Proof.
  intros (targets & creds & tun & proto & resolved & v & _ & _ & _ & Hv
          & Hadj)%parse_command_line_inv.
  exists v. split; [exact Hv|]. intros Hb info Hin H443.
  revert Hadj. unfold handle_http_get. rewrite Hv. cbn [mbind result_bind].
  rewrite Hb. intros <-%Ok_eq. by eapply http_get_443.
Qed.

(** X19. A --regular scan turns --http_get on: the run never misses the
    [http_get] attribute, and every descriptor on port 443 that it
    returns has the HTTPS protocol. *)
Theorem parse_command_line_regular_https available_plugins self args positional w :
  __init__ available_plugins = Ok self →
  regular args = Some true →
  getattr "http_get" (handle_regular self args) = Ok (Py.VBool true)
  ∧ ∀ good bad args' w',
      run self (args, positional) w = (Ok (good, bad, args'), w') →
      ∀ info, info ∈ good → port info = 443 →
              tls_wrapped_protocol info = HTTPS.
Proof.
  intros Hinit Hreg.
  assert (getattr "http_get" (handle_regular self args) = Ok (Py.VBool true))
    as Hget.
  { unfold getattr, handle_regular.
    rewrite (__init___has_regular open_file decode_utf8 Creds Tunnel
               new_creds from_url World new_info _ _ Hinit), Hreg.
    cbn [is_true].
    rewrite setattr_all_lookup; [done|]. unfold REGULAR_CMD.
    by repeat constructor. }
  split; [exact Hget|].
  intros good bad args' w'
    (targets & creds & tun & proto & resolved & v & _ & -> & _ & Hv
     & Hadj)%parse_command_line_inv info Hin H443.
  revert Hadj. unfold handle_http_get. rewrite Hget. cbn [mbind result_bind].
  cbn [Py.bool_of]. intros <-%Ok_eq. by eapply http_get_443.
Qed.

(** X20. When no option defines [http_get] and --regular is not set, no
    run returns: once the options are accepted and the loop is over,
    reading the attribute raises [AttributeError]. *)
Theorem parse_command_line_missing_http_get self args positional w :
  plugin_values args !! "http_get" = None →
  is_true (regular args) = false →
  (∃ e w', run self (args, positional) w = (Raise e, w'))
  ∧ ∀ args' targets creds tun proto good bad w',
      options self args positional = Ok (args', targets, creds, tun, proto) →
      loop args' proto creds tun targets [] [] w = (Ok (good, bad), w') →
      run self (args, positional) w = (Raise (AttributeError "http_get"), w').
Proof.
  intros Hmiss Hreg.
  assert (handle_regular self args = args) as Hsame.
  { unfold handle_regular. rewrite Hreg. by destruct (has_option _ _). }
  assert (∀ l : list Info, handle_http_get args l
                           = Raise (AttributeError "http_get")) as Hget.
  { intros l. unfold handle_http_get, getattr. by rewrite Hmiss. }
  split.
  - unfold parse_command_line.
    destruct (options self args positional)
      as [[[[[a ts] creds] tun] proto]|e] eqn:Hopt; [|by eexists _, _].
    apply parse_command_line_options_fields in Hopt. rewrite Hsame in Hopt.
    subst a.
    destruct (create_server_infos _ _ _ _ _ _ _ _ _ _ _ _ _ _)
      as [[[g b]|e] w1]; [|by eexists _, _].
    rewrite Hget. by eexists _, _.
  - intros args' targets creds tun proto good bad w' Hopt Hl.
    rewrite (parse_command_line_run _ _ _ _ _ _ _ _ _ Hopt), Hl.
    apply parse_command_line_options_fields in Hopt. rewrite Hsame in Hopt.
    subst args'. by rewrite Hget.
Qed.

Lemma set_tls_wrapped_protocol_same (r : Info) :
  set_tls_wrapped_protocol (tls_wrapped_protocol r) r = r.
Proof. by destruct r. Qed.

Lemma Forall2_map_self {A} (R : A → A → Prop) (k : A → A) l :
  (∀ r, R r (k r)) → Forall2 R l (map k l).
Proof. intros H. induction l; constructor; auto. Qed.

(** X21. The two adjustments that follow the loop change nothing but
    [tls_wrapped_protocol]: the descriptors returned are those of the
    loop, one for one and in the same order, and a descriptor whose port
    is neither 443 nor a key of [STARTTLS_PROTOCOL_DICT] is returned as
    the loop built it. *)
Theorem parse_command_line_adjustments self args positional w good bad args' w' :
  run self (args, positional) w = (Ok (good, bad, args'), w') →
  ∃ targets creds tun proto resolved,
    loop args' proto creds tun targets [] [] w = (Ok (resolved, bad), w')
    ∧ Forall2 (λ r info : Info,
                 info = set_tls_wrapped_protocol (tls_wrapped_protocol info) r
                 ∧ (port r ≠ 443 →
                    STARTTLS_PROTOCOL_DICT !! inr (port r) = None →
                    info = r))
        resolved good.
Proof.
  intros (targets & creds & tun & proto & resolved & v & _ & _ & Hl & Hv
          & Hadj)%parse_command_line_inv.
  exists targets, creds, tun, proto, resolved. split; [exact Hl|].
  set (R := λ r info : Info,
    info = set_tls_wrapped_protocol (tls_wrapped_protocol info) r
    ∧ (port r ≠ 443 → STARTTLS_PROTOCOL_DICT !! inr (port r) = None →
       info = r)).
  set (f := λ r : Info,
    match STARTTLS_PROTOCOL_DICT !! inr (port r) with
    | Some protocol => set_tls_wrapped_protocol protocol r
    | None => r
    end).
  set (g := λ r : Info,
    if port r =? 443 then set_tls_wrapped_protocol HTTPS r else r).
  assert (∀ r, R r r) as Hid.
  { intros r. split; [|done]. by rewrite set_tls_wrapped_protocol_same. }
  assert (∀ r, R r (f r)) as Hf.
  { intros r. unfold f.
    destruct (STARTTLS_PROTOCOL_DICT !! inr (port r)) as [p|] eqn:E;
      [|apply Hid].
    split; [reflexivity|]. intros _ HN. rewrite HN in E. discriminate E. }
  assert (∀ r, R r (g r)) as Hg.
  { intros r. unfold g. destruct (port r =? 443) eqn:E; [|apply Hid].
    split; [reflexivity|]. intros Hne. by apply Z.eqb_eq in E. }
  assert (∀ r, R r (g (f r))) as Hgf.
  { intros r. unfold f.
    destruct (STARTTLS_PROTOCOL_DICT !! inr (port r)) as [p|] eqn:E;
      [|apply Hg].
    unfold g. change (port (set_tls_wrapped_protocol p r)) with (port r).
    destruct (port r =? 443) eqn:E4.
    - split; [reflexivity|]. intros Hne. by apply Z.eqb_eq in E4.
    - split; [reflexivity|]. intros _ HN. rewrite HN in E. discriminate E. }
  revert Hadj. unfold handle_http_get, handle_starttls_auto.
  rewrite Hv. cbn [mbind result_bind].
  fold f. fold g.
  destruct (Py.bool_of v), (bool_decide _); intros <-%Ok_eq.
  - rewrite map_map. by apply Forall2_map_self.
  - by apply Forall2_map_self.
  - by apply Forall2_map_self.
  - rewrite <- (map_id resolved) at 2. by apply Forall2_map_self.
Qed.

End MoreBatch.

(** ** Further runs in the sample environment *)

Lemma parse_server_string_host_port_ip_witness :
  parse_server_string true "example.com:443{1.2.3.4}"
  = Ok ("example.com", Some "1.2.3.4", Some 443)
  ∧ parse_server_string true "example.com{1.2.3.4}"
    = Ok ("example.com", Some "1.2.3.4", None).
Proof.
  exact (parse_server_string_host_port_ip true "example.com" "1.2.3.4" 443
           eq_refl eq_refl eq_refl eq_refl eq_refl eq_refl).
Defined.

Lemma parse_server_string_bracketed_witness :
  parse_server_string true "[2001:db8::1]:443"
  = Ok ("2001:db8::1", None, Some 443)
  ∧ parse_server_string true "[2001:db8::1]" = Ok ("2001:db8::1", None, None).
Proof.
  exact (parse_server_string_bracketed "2001:db8::1" 443
           eq_refl eq_refl eq_refl).
Defined.

Lemma parse_server_string_no_ipv6_witness :
  parse_server_string false "example.com:443{[::1]}" = Raise NoIPv6.
Proof.
  apply (parse_server_string_no_ipv6 "example.com:443{[::1]}"
           "example.com:443" (Some "[::1]") eq_refl).
  right. exists "[::1]". split; reflexivity.
Defined.

Lemma parse_server_string_unbalanced_bracket_witness :
  parse_server_string true "[::1" = Raise IndexError.
Proof.
  apply (parse_server_string_unbalanced_bracket "[::1" "[::1" None
           eq_refl eq_refl).
  left. reflexivity.
Defined.

Lemma parse_server_string_result_shape_witness :
  Py.contains ":" "example.com" = false
  ∧ (Some 443 = None ↔ Py.contains ":" "example.com:443" = false).
Proof.
  destruct (parse_server_string_result_shape true "example.com:443{1.2.3.4}"
              "example.com:443" (Some "1.2.3.4") "example.com"
              (Some "1.2.3.4") (Some 443) eq_refl eq_refl) as [H _].
  exact H.
Defined.

Lemma parse_server_string_extra_segments_witness :
  parse_server_string true "example.com:443:junk"
  = Ok ("example.com", None, Some 443).
Proof.
  exact (parse_server_string_extra_segments true "example.com" 443 "junk"
           eq_refl eq_refl eq_refl eq_refl eq_refl).
Defined.

Lemma handle_targets_in_file_targets_witness :
  Forall (λ target,
            target ≠ EmptyString
            ∧ Py.strip Py.isspace_bytes target = target
            ∧ Py.contains Py.newline target = false)
    ["mail.example.com:587"; "#staging"; "www.example.com"].
Proof.
  exact (handle_targets_in_file_targets Sample.open_file Sample.from_file
           "targets.txt" Sample.targets_file _ eq_refl eq_refl eq_refl
           eq_refl).
Defined.

Lemma __init___registered_witness :
  has_option (_parser Sample.parser) "--http_get" = true.
Proof.
  destruct (__init___registered [["--http_get"]] Sample.parser eq_refl)
    as (_ & _ & H).
  apply (H ["--http_get"] "--http_get"); by repeat constructor.
Defined.

Lemma parse_command_line_output_conflicts_witness :
  Cases.run Cases.quiet_xml_stdout Sample.batch =
    (Raise (CommandLineParsingError "Cannot use --quiet with --xml_out -."),
     []).
Proof.
  destruct (parse_command_line_output_conflicts true Sample.open_file
              Sample.decode_utf8 unit unit Sample.new_credentials
              Sample.from_url (list string) Sample.new_info Sample.parser
              Cases.quiet_xml_stdout Sample.batch [] Sample.batch eq_refl)
    as [H _].
  exact (H eq_refl eq_refl).
Defined.

Lemma parse_command_line_accepted_options_witness :
  1 ≤ nb_retries Sample.no_options.
Proof.
  destruct (parse_command_line_accepted_options true Sample.open_file
              Sample.decode_utf8 unit unit Sample.new_credentials
              Sample.from_url (list string) Sample.new_info Sample.parser
              Sample.no_options Sample.batch [] _ _ _ _ eq_refl) as [H _].
  exact H.
Defined.

Lemma parse_command_line_nb_retries_witness :
  Cases.run Cases.no_retry Sample.batch =
    (Raise (CommandLineParsingError
       "Cannot have a number smaller than 1 for --nb_retries."), []).
Proof.
  destruct (parse_command_line_nb_retries true Sample.open_file
              Sample.decode_utf8 unit unit Sample.new_credentials
              Sample.from_url (list string) Sample.new_info Sample.parser
              Cases.no_retry Sample.batch []) as [_ H]; [reflexivity|].
  exact (H Sample.batch None None PLAIN_TLS eq_refl eq_refl eq_refl eq_refl
           eq_refl).
Defined.

Lemma check_starttls_values_witness :
  check_starttls Cases.smtp = Ok STARTTLS_SMTP.
Proof.
  destruct (check_starttls_values Cases.smtp) as (_ & H & _).
  destruct (H "smtp" eq_refl) as (protocol & Hp & Hc & _).
  - unfold START_TLS_PROTOCOLS. by repeat constructor.
  - discriminate.
  - rewrite Hc. f_equal. vm_compute in Hp. by injection Hp as <-.
Defined.

Lemma resolve_options_shared_settings_witness :
  Sample.new_credentials (Some "client.pem") (Some "client.key") PEM EmptyString
  = Ok ().
Proof.
  destruct (resolve_options_shared_settings Sample.open_file unit unit
              Sample.new_credentials Sample.from_url Sample.parser
              Cases.with_client_cert Sample.batch _ _ (Some ()) None _ eq_refl)
    as [(_ & key_type & H & [[E _]|[_ ->]]) _].
  - discriminate E.
  - exact H.
Defined.


Lemma parse_command_line_kinds_witness :
  ∃ good bad args' w',
    Sample.run Sample.no_options Sample.batch = (Ok (good, bad, args'), w')
    ∧ Forall (λ f, ∃ m, failed_reason f = ServerConnectivityError m) bad.
Proof.
  eexists _, _, _, _. split; [reflexivity|].
  destruct (parse_command_line_kinds true Sample.open_file
              Sample.decode_utf8 unit unit Sample.new_credentials
              Sample.from_url (list string) Sample.new_info Sample.parser
              Sample.no_options Sample.batch [] _ _ _ _ eq_refl) as [H _].
  exact H.
Defined.


Lemma parse_command_line_fatal_target_witness :
  ∃ e' w', Sample.run Sample.no_options ["example.com"; "[::1"]
           = (Raise e', w').
Proof.
  apply (parse_command_line_fatal_target true Sample.open_file
           Sample.decode_utf8 unit unit Sample.new_credentials
           Sample.from_url (list string) Sample.new_info Sample.parser
           Sample.no_options ["example.com"; "[::1"] [] Sample.no_options
           ["example.com"; "[::1"] None None PLAIN_TLS "[::1" "[::1"
           IndexError).
  - reflexivity.
  - by repeat constructor.
  - reflexivity.
  - reflexivity.
  - discriminate.
Defined.

Lemma parse_command_line_http_get_witness :
  ∃ good bad args' w',
    Cases.run Cases.with_http_get Sample.batch = (Ok (good, bad, args'), w')
    ∧ map (λ info, (port info, tls_wrapped_protocol info)) good
      = [(443, HTTPS); (587, PLAIN_TLS)]
    ∧ ∀ info, info ∈ good → port info = 443 →
              tls_wrapped_protocol info = HTTPS.
Proof.
  eexists _, _, _, _. split; [reflexivity|]. split; [reflexivity|].
  destruct (parse_command_line_http_get true Sample.open_file
              Sample.decode_utf8 unit unit Sample.new_credentials
              Sample.from_url (list string) Sample.new_info Sample.parser
              Cases.with_http_get Sample.batch [] _ _ _ _ eq_refl)
    as (v & Hv & H).
  apply H. vm_compute in Hv. by injection Hv as <-.
Defined.

Lemma parse_command_line_regular_https_witness :
  getattr "http_get" (handle_regular Sample.parser Sample.regular_scan)
  = Ok (Py.VBool true).
Proof.
  destruct (parse_command_line_regular_https true Sample.open_file
              Sample.decode_utf8 unit unit Sample.new_credentials
              Sample.from_url (list string) Sample.new_info
              [["--http_get"]] Sample.parser Sample.regular_scan
              Sample.batch [] eq_refl eq_refl) as [H _].
  exact H.
Defined.

Lemma parse_command_line_missing_http_get_witness :
  ∃ w', Cases.run Cases.no_plugin Sample.batch
        = (Raise (AttributeError "http_get"), w').
Proof.
  destruct (parse_command_line_missing_http_get true Sample.open_file
              Sample.decode_utf8 unit unit Sample.new_credentials
              Sample.from_url (list string) Sample.new_info Sample.parser
              Cases.no_plugin Sample.batch [] eq_refl eq_refl) as [_ H].
  eexists. eapply H; reflexivity.
Defined.

Lemma parse_command_line_adjustments_witness :
  ∃ good bad args' w',
    Cases.run Cases.with_http_get Sample.batch = (Ok (good, bad, args'), w')
    ∧ map hostname good = ["example.com"; "a.example.org"].
Proof.
  eexists _, _, _, _. split; [reflexivity|].
  destruct (parse_command_line_adjustments true Sample.open_file
              Sample.decode_utf8 unit unit Sample.new_credentials
              Sample.from_url (list string) Sample.new_info Sample.parser
              Cases.with_http_get Sample.batch [] _ _ _ _ eq_refl)
    as (targets & creds & tun & proto & resolved & _ & HF).
  reflexivity.
Defined.
